(** * djangorestframework.resources: a shallow embedding

    The module defines the resource classes of the framework.  Its
    substance is [FormResource._validate], which binds request content
    to a Django form, rejects unknown keys, retries once with a fake key
    when the form is invalid without saying why, and shapes the content
    of the 400 response; and the two field-set properties of
    [ModelResource].

    Python objects are modelled as follows.
    - A dict with string keys is a [gmap string _]; a set of names is a
      [gset string]; a tuple of names is a [list string].
    - The [data] argument is a reference to a dict object (or [None]):
      the code assigns into it, so dict objects live in a heap and are
      passed by location.  [files] is only read and is passed by value.
    - A Django form class is opaque: a constructor from the content to
      the observations the code makes of the bound form.
    - The view is the one collaborator the code writes to; it is part
      of the state.  The resource is assumed to be attached to a view.
    - [_validate] calls itself; the embedding recurses on a fuel
      argument, one unit per invocation, hence per binding of a form. *)

From stdpp Require Import base strings gmap pretty.
From Stdlib Require Import ZArith.

Open Scope string_scope.

(** ** Python values *)

(** The values found in request content and in error lists. *)
Inductive value : Type :=
  | VStr (s : string)
  | VInt (z : Z)
  | VNone.

#[global] Instance value_eq_dec : EqDecision value.
Proof. solve_decision. Defined.

(** The builtin [unicode] on these values. *)
Definition unicode (v : value) : string :=
  match v with
  | VStr s => s
  | VInt z => pretty z
  | VNone => "None"
  end.

Definition is_text (v : value) : bool :=
  match v with VStr _ => true | _ => false end.

Definition startswith (s p : string) : bool := String.prefix p s.

Definition lower_ascii (c : Ascii.ascii) : Ascii.ascii :=
  let n := Ascii.N_of_ascii c in
  if ((65 <=? n) && (n <=? 90))%N then Ascii.ascii_of_N (n + 32) else c.

Fixpoint lower (s : string) : string :=
  match s with
  | EmptyString => EmptyString
  | String c s' => String (lower_ascii c) (lower s')
  end.

(** Truth value of an attribute that is [None] or a tuple of names. *)
Definition truthy {A} (o : option (list A)) : bool :=
  match o with
  | Some (_ :: _) => true
  | _ => false
  end.

(** Truth value of an argument that is [None] or a string. *)
Definition truthy_str (o : option string) : bool :=
  match o with
  | Some s => negb (String.eqb s "")
  | None => false
  end.

(** Modelled from the spec: [as_tuple] of [djangorestframework.utils] is
    not part of the sources at hand.  The spec treats the [fields],
    [include] and [exclude] attributes as optional collections of names:
    [None] gives the empty tuple and a tuple is returned as it is. *)
Definition as_tuple (o : option (list string)) : list string :=
  match o with
  | Some l => l
  | None => []
  end.

Definition set (l : list string) : gset string := list_to_set l.

(** ** Django collaborators *)

Abbreviation dict := (gmap string value).

(** What the code observes of a bound form. *)
Record BoundForm : Type := {
  form_fields : list string;                   (* bound_form.fields.keys() *)
  is_valid : bool;                             (* bound_form.is_valid() *)
  cleaned_data : dict;                         (* bound_form.cleaned_data *)
  errors : gmap string (list value);           (* bound_form.errors *)
  non_field_errors : list value                (* bound_form.non_field_errors() *)
}.

(** A form class: [construct inst data files] is [form(data, files)],
    with [instance=inst] when an instance is given; [form()] is
    [construct None None None]. *)
Record Form : Type := {
  is_ModelForm : bool;                         (* issubclass(form, forms.ModelForm) *)
  construct : option dict → option dict → option dict → BoundForm
}.

(** A model class. *)
Record Model : Type := {
  meta_fields : list string;     (* field.name for field in model._meta.fields *)
  properties : list string;      (* attr in dir(model) whose value is a property *)
  modelform : option dict → option dict → option dict → BoundForm
                                 (* the ModelForm Django derives from the model *)
}.

(** An attribute looked up with [getattr(obj, name, default)]. *)
Definition getattr {A} (attrs : gmap string A) (name : string) (default : A) : A :=
  match attrs !! name with
  | Some a => a
  | None => default
  end.

(** The view. *)
Record View : Type := {
  view_form : option Form;                     (* getattr(view, 'form', None) *)
  view_method_forms : gmap string (option Form);  (* attributes named '<method>_form' *)
  view_request : option string;                (* view.request.method, if view has a request *)
  view_method : option string;                 (* view.method, if view has one *)
  view_model : option Model;                   (* getattr(view, 'model', None) *)
  view_model_instance : option dict;           (* view.model_instance, if view has one *)
  bound_form_instance : option BoundForm       (* set by _validate *)
}.

(** ** Resources *)

Inductive Class : Type := FormResource | ModelResource.

(** The attributes of a resource object. *)
Record Resource : Type := {
  cls : Class;
  form : option Form;
  method_forms : gmap string (option Form);    (* attributes named '<method>_form' *)
  allow_unknown_form_fields : bool;
  model : option Model;
  fields : option (list string);
  include : option (list string);
  exclude : option (list string)
}.

(** [ModelResource.__init__]: a model on the view overrides the model of
    the resource. *)
Definition ModelResource__init__ (view : View) (self : Resource) : Resource :=
  {| cls := cls self; form := form self; method_forms := method_forms self;
     allow_unknown_form_fields := allow_unknown_form_fields self;
     model := match view_model view with Some m => Some m | None => model self end;
     fields := fields self; include := include self; exclude := exclude self |}.

(** ** Field sets of a ModelResource *)

(** [_model_fields_set]; [None] is the AttributeError raised by
    [self.model._meta] when no model is set. *)
Definition _model_fields_set (self : Resource) : option (gset string) :=
  match model self with
  | None => None
  | Some m =>
      let model_fields := set (meta_fields m) in
      if truthy (fields self)
      then Some (model_fields ∩ set (as_tuple (fields self)))
      else Some (model_fields ∖ set (as_tuple (exclude self)))
  end.

(** The names [dir(self.model)] yields that are properties and public;
    [None] has no property. *)
Definition property_fields (self : Resource) : gset string :=
  match model self with
  | Some m => set (filter (λ attr, negb (startswith attr "_")) (properties m))
  | None => ∅
  end.

Definition _property_fields_set (self : Resource) : gset string :=
  if truthy (fields self)
  then property_fields self ∩ set (as_tuple (fields self))
  else (property_fields self ∪ set (as_tuple (include self)))
         ∖ set (as_tuple (exclude self)).

(** ** Choice and binding of the form *)

(** [a or b] on objects that are [None] or true. *)
Definition or_else {A} (a b : option A) : option A :=
  match a with
  | Some x => Some x
  | None => b
  end.

Definition get_form_class (self : Resource) (view : View) (method : option string)
  : option Form :=
  (* A form on the view overrides a form on the resource. *)
  let form := or_else (view_form view) (form self) in
  (* Use the requested method or determine the request method *)
  let method :=
    match method, view_request view, view_method view with
    | None, Some _, Some m => Some m
    | None, Some m, None => Some m
    | _, _, _ => method
    end in
  (* A method form on the view or resource overrides the general case. *)
  match method with
  | Some m =>
      if truthy_str method then
        let form := getattr (method_forms self) (lower m ++ "_form") form in
        getattr (view_method_forms view) (lower m ++ "_form") form
      else form
  | None => form
  end.

Definition is_not_None {A} (o : option A) : bool :=
  match o with Some _ => true | None => false end.

Definition FormResource_get_bound_form (self : Resource) (view : View)
    (data files : option dict) (method : option string) : option BoundForm :=
  match get_form_class self view method with
  | None => None
  | Some form =>
      if is_not_None data || is_not_None files
      then Some (construct form None data files)
      else Some (construct form None None None)
  end.

(** The form class [ModelResource.get_bound_form] creates on the fly. *)
Definition OnTheFlyModelForm (m : Model) : Form :=
  {| is_ModelForm := true; construct := modelform m |}.

Definition ModelResource_get_bound_form (self : Resource) (view : View)
    (data files : option dict) (method : option string) : option BoundForm :=
  let form := get_form_class self view method in
  let form :=
    match form, model self with
    | None, Some m => Some (OnTheFlyModelForm m)
    | _, _ => form
    end in
  match form with
  | None => None               (* Both form and model not set? *)
  | Some form =>
      if is_not_None data || is_not_None files then
        match is_ModelForm form, view_model_instance view with
        | true, Some inst => Some (construct form (Some inst) data files)
        | _, _ => Some (construct form None data files)
        end
      else Some (construct form None None None)
  end.

(** [self.get_bound_form], dispatched on the class of [self]. *)
Definition get_bound_form (self : Resource) : View → option dict → option dict →
    option string → option BoundForm :=
  match cls self with
  | FormResource => FormResource_get_bound_form self
  | ModelResource => ModelResource_get_bound_form self
  end.

(** ** State: the dict objects and the view *)

Abbreviation loc := positive.

Record State : Type := {
  heap : gmap positive (gmap string value);
  view : View
}.

(** The content of the dict at [l] (an unallocated location reads as an
    empty dict; the code never holds one). *)
Definition content (st : State) (l : loc) : dict := default ∅ (heap st !! l).

(** The content seen through an argument that is [None] or a dict. *)
Definition deref (st : State) (data : option loc) : option dict :=
  content st <$> data.

(** [d[key] = v] on the dict at [l]. *)
Definition setitem (l : loc) (key : string) (v : value) (st : State) : State :=
  {| heap := <[l := <[key := v]> (content st l)]> (heap st); view := view st |}.

(** A new empty dict, [{}]. *)
Definition new_dict (st : State) : loc * State :=
  let l := fresh (dom (heap st)) in
  (l, {| heap := <[l := ∅]> (heap st); view := view st |}).

(** [data and data or {}]: the dict itself when it has a key, a new
    empty dict when it has none or is [None]. *)
Definition and_or_new_dict (data : option loc) (st : State) : loc * State :=
  match data with
  | Some l => if bool_decide (content st l = ∅) then new_dict st else (l, st)
  | None => new_dict st
  end.

Definition with_bound_form_instance (v : View) (bf : BoundForm) : View :=
  {| view_form := view_form v; view_method_forms := view_method_forms v;
     view_request := view_request v; view_method := view_method v;
     view_model := view_model v; view_model_instance := view_model_instance v;
     bound_form_instance := Some bf |}.

(** [self.view.bound_form_instance = bound_form]. *)
Definition set_bound_form_instance (bf : BoundForm) (st : State) : State :=
  {| heap := heap st; view := with_bound_form_instance (view st) bf |}.

(** ** Outcomes *)

(** The content of an [ErrorResponse]: a dict that may have the keys
    ['errors'] and ['field_errors']. *)
Record Detail : Type := {
  detail_errors : option (list value);
  detail_field_errors : option (gmap string (list string))
}.

(** What [_validate] returns: the [data] argument itself, or the cleaned
    data of the bound form. *)
Inductive returned : Type :=
  | Data (data : option loc)
  | Cleaned (cleaned_data : dict).

Inductive outcome : Type :=
  | Return (r : returned)
  | ErrorResponse (status : Z) (detail : Detail)   (* raise ErrorResponse(status, detail) *)
  | TypeError.                                     (* item assignment to None *)

(** ** FormResource._validate *)

Definition reserved_keys : gset string :=
  set ["csrfmiddlewaretoken"; "_accept"; "_method"].

(** Lines 131-132. *)
Definition unknown_fields_of (seen_fields_set form_fields_set allowed_extra_fields_set
    : gset string) : gset string :=
  (seen_fields_set ∖ (form_fields_set ∪ allowed_extra_fields_set)) ∖ reserved_keys.

(** Lines 140-141: the loop that adds the extra fields to the cleaned
    content.  Every key it visits is a key of [data]. *)
Definition add_extra_fields (allowed_extra_fields_set seen_fields_set : gset string)
    (data cleaned_data : dict) : dict :=
  set_fold
    (λ key cleaned_data,
       match data !! key with
       | Some v => <[key := v]> cleaned_data
       | None => cleaned_data
       end)
    cleaned_data
    ((allowed_extra_fields_set ∩ seen_fields_set) ∖ dom cleaned_data).

Definition with_cleaned_data (bf : BoundForm) (c : dict) : BoundForm :=
  {| form_fields := form_fields bf; is_valid := is_valid bf; cleaned_data := c;
     errors := errors bf; non_field_errors := non_field_errors bf |}.

(** Lines 164-173: the standard field errors, then the unknown ones. *)
Definition field_errors_of (bound_form : BoundForm) (unknown_fields : gset string)
  : gmap string (list string) :=
  let field_errors : gmap string (list string) :=
    map unicode <$>
      filter (λ kv : string * list value, negb (startswith kv.1 "__")) (errors bound_form) in
  set_fold (λ key field_errors, <[key := ["This field does not exist."]]> field_errors)
    field_errors unknown_fields.

(** Line 156. *)
Definition no_content_detail : Detail :=
  {| detail_errors := Some [VStr "No content was supplied."];
     detail_field_errors := None |}.

(** Lines 159-176. *)
Definition error_detail (bound_form : BoundForm) (unknown_fields : gset string) : Detail :=
  let field_errors := field_errors_of bound_form unknown_fields in
  {| detail_errors :=
       match non_field_errors bound_form with
       | [] => None
       | _ :: _ => Some (non_field_errors bound_form)
       end;
     detail_field_errors :=
       if bool_decide (field_errors = ∅) then None else Some field_errors |}.

(** Lines 112-114.  [None] stands for the TypeError of assigning an item
    to [None]. *)
Definition set_fake_data (data : option loc) (allowed_extra_fields : list string)
    (fake_data : option string) (st : State) : option (list string * State) :=
  match fake_data with
  | Some key =>
      if truthy_str fake_data then
        match data with
        | Some l => Some ((allowed_extra_fields ++ ["_fake_data"])%list,
                          setitem l key (VStr "_fake_data") st)
        | None => None
        end
      else Some (allowed_extra_fields, st)
  | None => Some (allowed_extra_fields, st)
  end.

(** A result is [None] when the fuel did not cover the recursion. *)
Fixpoint _validate (fuel : nat) (self : Resource) (data : option loc)
    (files : option dict) (allowed_extra_fields : list string)
    (fake_data : option string) (st : State) : option (outcome * State) :=
  match fuel with
  | O => None
  | S fuel =>
    match set_fake_data data allowed_extra_fields fake_data st with
    | None => Some (TypeError, st)
    | Some (allowed_extra_fields, st) =>
      match get_bound_form self (view st) (deref st data) files None with
      | None => Some (Return (Data data), st)
      | Some bound_form =>
        let st := set_bound_form_instance bound_form st in
        let '(data, st) := and_or_new_dict data st in
        let files : dict := default ∅ files in
        let seen_fields_set := dom (content st data) in
        let form_fields_set := set (form_fields bound_form) in
        let allowed_extra_fields_set := set allowed_extra_fields in
        (* In addition to regular validation we also ensure no additional
           fields are being passed in... *)
        let unknown_fields :=
          unknown_fields_of seen_fields_set form_fields_set allowed_extra_fields_set in
        if is_valid bound_form
           && (allow_unknown_form_fields self || bool_decide (unknown_fields = ∅))
        then
          (* Validation succeeded... *)
          let cleaned_data :=
            add_extra_fields allowed_extra_fields_set seen_fields_set
              (content st data) (cleaned_data bound_form) in
          Some (Return (Cleaned cleaned_data),
                set_bound_form_instance (with_cleaned_data bound_form cleaned_data) st)
        else
          (* Validation failed... *)
          if bool_decide (errors bound_form = ∅) && bool_decide (unknown_fields = ∅)
          then
            match fake_data with
            | None =>
                _validate fuel self (Some data) (Some files) allowed_extra_fields
                  (Some "_fake_data") st
            | Some _ => Some (ErrorResponse 400 no_content_detail, st)
            end
          else Some (ErrorResponse 400 (error_detail bound_form unknown_fields), st)
      end
    end
  end.

(** [validate_request] of the class of [self]. *)
Definition validate_request (fuel : nat) (self : Resource) (data : option loc)
    (files : option dict) (st : State) : option (outcome * State) :=
  match cls self with
  | FormResource => _validate fuel self data files [] None st
  | ModelResource =>
      _validate fuel self data files (elements (_property_fields_set self)) None st
  end.

(** ** Example configurations *)

Definition plain_view : View :=
  {| view_form := None; view_method_forms := ∅; view_request := None;
     view_method := None; view_model := None; view_model_instance := None;
     bound_form_instance := None |}.

(** A form in the manner of Django with one required field, [name]: it
    is bound when it is given data or files, and a bound form is valid
    exactly when it has no errors. *)
Definition name_form : Form :=
  {| is_ModelForm := false;
     construct := λ _ data files,
       let bound := is_not_None data || is_not_None files in
       let name := default ∅ data !! "name" in
       {| form_fields := ["name"];
          is_valid := bound && is_not_None name;
          cleaned_data :=
            match name with Some v => {[ "name" := v ]} | None => ∅ end;
          errors :=
            if bound && negb (is_not_None name)
            then {[ "name" := [VStr "This field is required."] ]} else ∅;
          non_field_errors := [] |} |}.

(** A form in the manner of Django with one optional field, [name]: an
    unbound form is invalid and has no errors, a bound one is valid. *)
Definition optional_form : Form :=
  {| is_ModelForm := false;
     construct := λ _ data files,
       let bound := is_not_None data || is_not_None files in
       {| form_fields := ["name"];
          is_valid := bound;
          cleaned_data :=
            if bound then {[ "name" := default (VStr "") (default ∅ data !! "name") ]}
            else ∅;
          errors := ∅;
          non_field_errors := [] |} |}.

(** A validator that reports invalid, without any error, on content
    that has no key, and accepts any other content. *)
Definition silent_form : Form :=
  {| is_ModelForm := false;
     construct := λ _ data _,
       {| form_fields := [];
          is_valid := negb (bool_decide (default ∅ data = ∅));
          cleaned_data := ∅;
          errors := ∅;
          non_field_errors := [] |} |}.

(** A validator with the given fields that stays silent whatever the
    content. *)
Definition mute_form (names : list string) : Form :=
  {| is_ModelForm := false;
     construct := λ _ _ _,
       {| form_fields := names; is_valid := false; cleaned_data := ∅;
          errors := ∅; non_field_errors := [] |} |}.

(** A form that always fails with a field error and with a non-field
    error whose message is not a string. *)
Definition failing_form : Form :=
  {| is_ModelForm := false;
     construct := λ _ _ _,
       {| form_fields := ["name"];
          is_valid := false;
          cleaned_data := ∅;
          errors := {[ "name" := [VStr "This field is required."];
                       "__all__" := [VInt 3] ]};
          non_field_errors := [VInt 3] |} |}.

Definition form_resource (f : option Form) : Resource :=
  {| cls := FormResource; form := f; method_forms := ∅;
     allow_unknown_form_fields := false; model := None;
     fields := None; include := None; exclude := None |}.

Definition example_model (names : list string) : Model :=
  {| meta_fields := names; properties := names; modelform := construct name_form |}.

(** A ModelResource over a model whose fields and properties have the
    given names. *)
Definition model_resource (names : list string)
    (fields include exclude : option (list string)) : Resource :=
  {| cls := ModelResource; form := None; method_forms := ∅;
     allow_unknown_form_fields := false; model := Some (example_model names);
     fields := fields; include := include; exclude := exclude |}.

(** A ModelResource with neither form nor model. *)
Definition bare_model_resource : Resource :=
  {| cls := ModelResource; form := None; method_forms := ∅;
     allow_unknown_form_fields := false; model := None;
     fields := None; include := Some []; exclude := Some ["id"; "pk"] |}.

(** The example of the documentation: fields and properties [a], [b];
    [include = ('c',)]; [exclude = ('a',)]; no [fields]. *)
Definition abc_resource : Resource :=
  model_resource ["a"; "b"] None (Some ["c"]) (Some ["a"]).

(** A resource whose [fields] is the empty tuple. *)
Definition empty_fields_resource : Resource :=
  model_resource ["a"] (Some []) (Some ["c"]) None.

(** Fields and properties [a], [b], [c]; [fields = ('b', 'd')]. *)
Definition whitelist_resource : Resource :=
  model_resource ["a"; "b"; "c"] (Some ["b"; "d"]) (Some ["c"]) (Some ["b"]).

(** The content of the documented examples. *)
Definition name_and_extra : dict := {[ "name" := VStr "a"; "extra" := VStr "x" ]}.

(** One dict object, at location 1, with the given content. *)
Definition one_dict (d : dict) : State :=
  {| heap := {[ 1%positive := d ]}; view := plain_view |}.

(** A view that has a request, of the given method, and the given
    method forms. *)
Definition request_view (method : string) (forms : gmap string (option Form)) : View :=
  {| view_form := None; view_method_forms := forms; view_request := Some method;
     view_method := None; view_model := None; view_model_instance := None;
     bound_form_instance := None |}.

(** A view that has a request and a model instance. *)
Definition instance_view (inst : dict) : View :=
  {| view_form := None; view_method_forms := ∅; view_request := Some "PUT";
     view_method := None; view_model := None; view_model_instance := Some inst;
     bound_form_instance := None |}.

(** A FormResource that has a model but no form. *)
Definition form_resource_with_model : Resource :=
  {| cls := FormResource; form := None; method_forms := ∅;
     allow_unknown_form_fields := false; model := Some (example_model ["name"]);
     fields := None; include := None; exclude := None |}.

(** A FormResource that allows unknown fields. *)
Definition lenient_resource (f : Form) : Resource :=
  {| cls := FormResource; form := Some f; method_forms := ∅;
     allow_unknown_form_fields := true; model := None;
     fields := None; include := None; exclude := None |}.

(** A ModelForm given as the form of a ModelResource that has a model. *)
Definition explicit_model_form : Form :=
  {| is_ModelForm := true; construct := construct optional_form |}.

Definition model_resource_with_form : Resource :=
  {| cls := ModelResource; form := Some explicit_model_form; method_forms := ∅;
     allow_unknown_form_fields := false; model := Some (example_model ["name"]);
     fields := None; include := Some []; exclude := Some ["id"; "pk"] |}.

(** One dict object, at location 1, seen from the given view. *)
Definition one_dict_on (v : View) (d : dict) : State :=
  {| heap := {[ 1%positive := d ]}; view := v |}.

(** ** Auxiliary facts *)

(** A closed decidable proposition, settled by evaluation. *)
Ltac by_evaluation := apply (bool_decide_eq_true_1 _); vm_compute; reflexivity.

Lemma elem_of_set (l : list string) (k : string) : k ∈ set l ↔ k ∈ l.
Proof. unfold set. apply elem_of_list_to_set. Qed.

Lemma elem_of_reserved_keys (k : string) :
  k ∈ reserved_keys ↔ k = "csrfmiddlewaretoken" ∨ k = "_accept" ∨ k = "_method".
Proof.
  unfold reserved_keys. rewrite elem_of_set, !elem_of_cons, elem_of_nil. tauto.
Qed.

Lemma elem_of_unknown_fields_of (seen own allowed : gset string) (k : string) :
  k ∈ unknown_fields_of seen own allowed ↔
  k ∈ seen ∧ (k ∉ own) ∧ (k ∉ allowed) ∧ (k ∉ reserved_keys).
Proof.
  unfold unknown_fields_of. rewrite !elem_of_difference, elem_of_union. tauto.
Qed.

Lemma lookup_foldr_insert_const {A} (c : A) (l : list string) (m : gmap string A)
    (k : string) :
  foldr (λ key m, <[key := c]> m) m l !! k = if decide (k ∈ l) then Some c else m !! k.
Proof.
  induction l as [|a l IH]; cbn [foldr].
  - destruct (decide (k ∈ [])) as [H|H]; [by apply elem_of_nil in H | done].
  - destruct (decide (a = k)) as [->|Hne].
    + rewrite lookup_insert_eq. rewrite decide_True; [done | by left].
    + rewrite lookup_insert_ne by done. rewrite IH.
      destruct (decide (k ∈ l)) as [Hin|Hnin].
      * rewrite decide_True; [done | by right].
      * rewrite decide_False; [done |].
        intros [?|?]%elem_of_cons; congruence.
Qed.

(** The entries of the field errors: the unknown keys first, then what
    the form reports under names that do not start with two underscores. *)
Lemma lookup_field_errors_of (bf : BoundForm) (U : gset string) (k : string) :
  field_errors_of bf U !! k =
    if decide (k ∈ U) then Some ["This field does not exist."]
    else if startswith k "__" then None
    else map unicode <$> errors bf !! k.
Proof.
  unfold field_errors_of, set_fold. simpl.
  rewrite lookup_foldr_insert_const.
  destruct (decide (k ∈ U)) as [Hin|Hnin].
  - rewrite decide_True; [done | by apply elem_of_elements].
  - rewrite decide_False by (by rewrite elem_of_elements).
    rewrite lookup_fmap, map_lookup_filter. simpl.
    destruct (errors bf !! k) as [msgs|]; simpl; [| by destruct (startswith k "__")].
    destruct (startswith k "__"); simpl; by rewrite ?option_guard_True, ?option_guard_False by (simpl; auto).
Qed.

Lemma lookup_foldr_copy (data : gmap string value) (l : list string)
    (c : gmap string value) (k : string) :
  foldr (λ key c, match data !! key with Some v => <[key := v]> c | None => c end) c l !! k
  = if decide (k ∈ l)
    then match data !! k with Some v => Some v | None => c !! k end
    else c !! k.
Proof.
  induction l as [|a l IH]; cbn [foldr].
  - destruct (decide (k ∈ [])) as [H|H]; [by apply elem_of_nil in H | done].
  - destruct (decide (a = k)) as [->|Hne].
    + rewrite (decide_True (P := k ∈ k :: l)) by (by left).
      destruct (data !! k) as [v|] eqn:Hk; [by rewrite lookup_insert_eq |].
      rewrite IH. by destruct (decide (k ∈ l)).
    + assert (k ∈ a :: l ↔ k ∈ l) as Hiff.
      { rewrite elem_of_cons. split; [intros [?|?]; [congruence | done] | auto]. }
      destruct (data !! a) as [v|]; rewrite ?lookup_insert_ne by done; rewrite IH;
        destruct (decide (k ∈ l)) as [Hin|Hnin];
        [ rewrite decide_True by (by apply Hiff) | rewrite decide_False by (by rewrite Hiff)
        | rewrite decide_True by (by apply Hiff) | rewrite decide_False by (by rewrite Hiff) ];
        done.
Qed.

(** The cleaned content after the loop of lines 140-141: the cleaned
    data of the form, and under every allowed extra key the form did not
    clean, what the input has. *)
Lemma lookup_add_extra_fields (A : gset string) (data cleaned : gmap string value)
    (k : string) :
  add_extra_fields A (dom data) data cleaned !! k =
    match cleaned !! k with
    | Some v => Some v
    | None => if decide (k ∈ A) then data !! k else None
    end.
Proof.
  unfold add_extra_fields, set_fold. simpl. rewrite lookup_foldr_copy.
  destruct (cleaned !! k) as [v|] eqn:Hc.
  - rewrite decide_False; [done |].
    rewrite elem_of_elements, elem_of_difference, elem_of_dom. intros [_ []]. eauto.
  - destruct (decide (k ∈ A)) as [HA|HA].
    + destruct (data !! k) as [v|] eqn:Hd.
      * rewrite decide_True; [done |].
        rewrite elem_of_elements, elem_of_difference, elem_of_intersection, !elem_of_dom.
        rewrite Hd, Hc. split; [eauto | by intros []].
      * by destruct (decide _).
    + rewrite decide_False; [done |].
      rewrite elem_of_elements, elem_of_difference, elem_of_intersection. tauto.
Qed.

(** ** The choice of the form *)

(** After [__init__] a ModelResource has no model exactly when neither
    the view nor the class has one. *)
Lemma ModelResource__init__no_model (v : View) (self : Resource) :
  model (ModelResource__init__ v self) = None ↔ view_model v = None ∧ model self = None.
Proof.
  unfold ModelResource__init__. simpl.
  destruct (view_model v), (model self); split; intros H; try done; by destruct H.
Qed.

(** A form for the method of the request overrides the general form. *)
Lemma get_form_class_method_form :
  get_form_class
    {| cls := FormResource; form := Some name_form;
       method_forms := {[ "post_form" := Some optional_form ]};
       allow_unknown_form_fields := false; model := None;
       fields := None; include := None; exclude := None |}
    {| view_form := None; view_method_forms := ∅; view_request := Some "POST";
       view_method := None; view_model := None; view_model_instance := None;
       bound_form_instance := None |}
    None
  = Some optional_form.
Proof. vm_compute. reflexivity. Qed.

(** ** The field sets *)

(** C8, as stated, fails for the model fields: with fields [a], [b] on
    the model, [include = ('c',)] and [exclude = ('a',)],
    [_model_fields_set] is not [({a, b} ∪ {c}) − {a}]; it is [{b}], the
    included name is left out. *)
Lemma model_fields_set_leaves_include_out :
  _model_fields_set abc_resource ≠ Some ((set ["a"; "b"] ∪ set ["c"]) ∖ set ["a"])
  ∧ _model_fields_set abc_resource = Some {[ "b" ]}.
Proof.
  split.
  - by_evaluation.
  - by_evaluation.
Qed.

(** C8, amended: when [fields] is unset (or empty), the property-field
    set is (discovered ∪ include) − exclude, and the model-field set is
    discovered − exclude, whatever [include] is. *)
Theorem field_sets_without_fields (self : Resource) :
  truthy (fields self) = false →
  _property_fields_set self
    = (property_fields self ∪ set (as_tuple (include self)))
        ∖ set (as_tuple (exclude self))
  ∧ ∀ m, model self = Some m →
      _model_fields_set self
        = Some (set (meta_fields m) ∖ set (as_tuple (exclude self))).
Proof.
  intros Hf. split.
  - unfold _property_fields_set. by rewrite Hf.
  - intros m Hm. unfold _model_fields_set. by rewrite Hm, Hf.
Qed.

Lemma field_sets_without_fields_witness :
  _property_fields_set abc_resource
    = (property_fields abc_resource ∪ set ["c"]) ∖ set ["a"]
  ∧ _model_fields_set abc_resource = Some (set ["a"; "b"] ∖ set ["a"]).
Proof.
  destruct (field_sets_without_fields abc_resource eq_refl) as [Hp Hm].
  split; [exact Hp | exact (Hm _ eq_refl)].
Defined.

(** On the documented example the two sets are [{b, c}] and [{b}]. *)
Lemma field_sets_without_fields_example :
  _property_fields_set abc_resource = {[ "b"; "c" ]}
  ∧ _model_fields_set abc_resource = Some {[ "b" ]}.
Proof.
  split; by_evaluation.
Qed.

(** C9, as stated, fails when [fields] is set to the empty tuple: the
    test [if self.fields] is false for it, and the property-field set is
    then (discovered ∪ include) − exclude, here with the name [c] that
    discovery did not find, and not the empty intersection. *)
Lemma empty_fields_is_no_whitelist :
  fields empty_fields_resource = Some []
  ∧ _property_fields_set empty_fields_resource
      ≠ set (as_tuple (fields empty_fields_resource))
          ∩ property_fields empty_fields_resource
  ∧ "c" ∈ _property_fields_set empty_fields_resource
  ∧ "c" ∉ property_fields empty_fields_resource.
Proof.
  split; [reflexivity |]. split; [| split].
  - by_evaluation.
  - by_evaluation.
  - by_evaluation.
Qed.

(** C9, amended: when [fields] is set to a tuple that is not empty, each
    of the two sets is the intersection of the whitelist with the
    discovered names, hence a subset of the discovered names: a name
    that discovery did not find is not in it. *)
Theorem field_sets_with_fields (self : Resource) :
  truthy (fields self) = true →
  let whitelist := set (as_tuple (fields self)) in
  (_property_fields_set self = whitelist ∩ property_fields self
   ∧ _property_fields_set self ⊆ property_fields self)
  ∧ ∀ m, model self = Some m →
      ∃ s, _model_fields_set self = Some s
           ∧ s = whitelist ∩ set (meta_fields m)
           ∧ s ⊆ set (meta_fields m).
Proof.
  intros Hf whitelist. split.
  - unfold _property_fields_set. rewrite Hf. fold whitelist. split.
    + apply (comm_L (∩)).
    + apply intersection_subseteq_l.
  - intros m Hm. unfold _model_fields_set. rewrite Hm, Hf. fold whitelist.
    eexists. split; [reflexivity |]. split.
    + apply (comm_L (∩)).
    + apply intersection_subseteq_l.
Qed.

Lemma field_sets_with_fields_witness :
  _property_fields_set whitelist_resource = set ["b"; "d"] ∩ property_fields whitelist_resource
  ∧ ∃ s, _model_fields_set whitelist_resource = Some s ∧ s ⊆ set ["a"; "b"; "c"].
Proof.
  destruct (field_sets_with_fields whitelist_resource eq_refl) as [[Hp _] Hm].
  split; [exact Hp |].
  destruct (Hm _ eq_refl) as (s & Hs & _ & Hsub).
  exists s. split; [exact Hs | exact Hsub].
Defined.

(** The documented example: fields [a], [b], [c] and the whitelist
    [('b', 'd')] give [{b}]. *)
Lemma field_sets_with_fields_example :
  _property_fields_set whitelist_resource = {[ "b" ]}
  ∧ _model_fields_set whitelist_resource = Some {[ "b" ]}.
Proof.
  split; by_evaluation.
Qed.

(** ** One pass of _validate *)

Lemma content_new_dict (st : State) : content (new_dict st).2 (new_dict st).1 = ∅.
Proof. unfold content, new_dict. simpl. by rewrite lookup_insert_eq. Qed.

(** What [data and data or {}] holds is the content of [data], or
    nothing. *)
Lemma content_and_or_new_dict (data : option loc) (st : State) :
  content (and_or_new_dict data st).2 (and_or_new_dict data st).1
  = default ∅ (deref st data).
Proof.
  destruct data as [l|]; simpl; [| apply content_new_dict].
  destruct (bool_decide (content st l = ∅)) eqn:He; [| done].
  apply bool_decide_eq_true_1 in He. rewrite He. apply content_new_dict.
Qed.

Lemma view_and_or_new_dict (data : option loc) (st : State) :
  view (and_or_new_dict data st).2 = view st.
Proof.
  destruct data as [l|]; simpl; [| done].
  by destruct (bool_decide (content st l = ∅)).
Qed.

(** One invocation, once the fake key is set and a form is bound. *)
Lemma _validate_pass (n : nat) (self : Resource) (data : option loc)
    (files : option dict) (allowed : list string) (fake : option string)
    (st : State) (allowed1 : list string) (st1 : State) (bf : BoundForm) :
  set_fake_data data allowed fake st = Some (allowed1, st1) →
  get_bound_form self (view st1) (deref st1 data) files None = Some bf →
  let p := and_or_new_dict data (set_bound_form_instance bf st1) in
  let d := default ∅ (deref st1 data) in
  let U := unknown_fields_of (dom d) (set (form_fields bf)) (set allowed1) in
  let cleaned := add_extra_fields (set allowed1) (dom d) d (cleaned_data bf) in
  _validate (S n) self data files allowed fake st =
    if is_valid bf && (allow_unknown_form_fields self || bool_decide (U = ∅))
    then Some (Return (Cleaned cleaned),
               set_bound_form_instance (with_cleaned_data bf cleaned) p.2)
    else if bool_decide (errors bf = ∅) && bool_decide (U = ∅)
    then match fake with
         | None => _validate n self (Some p.1) (Some (default ∅ files)) allowed1
                     (Some "_fake_data") p.2
         | Some _ => Some (ErrorResponse 400 no_content_detail, p.2)
         end
    else Some (ErrorResponse 400 (error_detail bf U), p.2).
Proof.
  intros Hfake Hbind p d U cleaned. cbn [_validate]. rewrite Hfake, Hbind.
  pose proof (content_and_or_new_dict data (set_bound_form_instance bf st1)) as Hc.
  change (deref (set_bound_form_instance bf st1) data) with (deref st1 data) in Hc.
  subst p.
  destruct (and_or_new_dict data (set_bound_form_instance bf st1)) as [l' st'].
  simpl in Hc. rewrite Hc. reflexivity.
Qed.

(** When no form is bound the argument comes back and nothing else happens. *)
Lemma _validate_unbound (n : nat) (self : Resource) (data : option loc)
    (files : option dict) (allowed : list string) (fake : option string)
    (st : State) (allowed1 : list string) (st1 : State) :
  set_fake_data data allowed fake st = Some (allowed1, st1) →
  get_bound_form self (view st1) (deref st1 data) files None = None →
  _validate (S n) self data files allowed fake st = Some (Return (Data data), st1).
Proof. intros Hfake Hbind. cbn [_validate]. by rewrite Hfake, Hbind. Qed.

(** The form class does not depend on the content, so neither does it
    whether a form is bound. *)
Lemma get_bound_form_Some (self : Resource) (v : View) (data files data' files' : option dict)
    (bf : BoundForm) :
  get_bound_form self v data files None = Some bf →
  ∃ bf', get_bound_form self v data' files' None = Some bf'.
Proof.
  unfold get_bound_form.
  destruct (cls self);
    unfold FormResource_get_bound_form, ModelResource_get_bound_form.
  - destruct (get_form_class self v None); [| discriminate]. intros _.
    destruct (is_not_None data' || is_not_None files'); eauto.
  - destruct (get_form_class self v None) as [f|], (model self) as [m|];
      try discriminate; intros _;
      destruct (is_not_None data' || is_not_None files'); eauto;
      match goal with
      | |- context [is_ModelForm ?f] =>
          destruct (is_ModelForm f), (view_model_instance v); eauto
      end.
Qed.

(** Binding does not read [bound_form_instance]. *)
Lemma get_bound_form_with_bound_form_instance (self : Resource) (v : View)
    (bf : BoundForm) (data files : option dict) (method : option string) :
  get_bound_form self (with_bound_form_instance v bf) data files method
  = get_bound_form self v data files method.
Proof. unfold get_bound_form. destruct (cls self); reflexivity. Qed.

(** ** The claims on _validate *)

(** C7: with no form on the view or on the resource, no method form that
    is a form, and no model, [validate_request] of either class returns
    its [data] argument, the same object with the same content: the
    state is as it was, and nothing is raised. *)
Theorem validate_request_without_form (n : nat) (self : Resource)
    (data : option loc) (files : option dict) (st : State) :
  view_form (view st) = None →
  form self = None →
  (∀ name, getattr (method_forms self) name None = None) →
  (∀ name, getattr (view_method_forms (view st)) name None = None) →
  model self = None →
  validate_request (S n) self data files st = Some (Return (Data data), st).
Proof.
  intros Hvf Hf Hmf Hvmf Hm.
  assert (get_form_class self (view st) None = None) as Hclass.
  { unfold get_form_class. rewrite Hvf, Hf. simpl.
    destruct (view_request (view st)) as [rm|]; [| done].
    destruct (view_method (view st)) as [m|];
      (destruct (truthy_str _); [| done]); by rewrite Hmf, Hvmf. }
  assert (get_bound_form self (view st) (deref st data) files None = None) as Hbind.
  { unfold get_bound_form.
    destruct (cls self);
      unfold FormResource_get_bound_form, ModelResource_get_bound_form;
      by rewrite Hclass, ?Hm. }
  unfold validate_request.
  destruct (cls self); (eapply _validate_unbound; [reflexivity | exact Hbind]).
Qed.

Lemma validate_request_without_form_witness :
  validate_request 1 bare_model_resource (Some 1%positive) None
    (one_dict {[ "name" := VStr "a" ]})
  = Some (Return (Data (Some 1%positive)), one_dict {[ "name" := VStr "a" ]}).
Proof.
  apply (validate_request_without_form 0 bare_model_resource);
    first [reflexivity | intros name; reflexivity].
Defined.

Section pass.

(** One invocation of [_validate] that has set the fake key (lines
    112-114) and bound a form (line 116).  In the statements [d] is the
    content the invocation validates, [U] its unknown fields, [success]
    the test of line 135, [silent] the test of line 148, and [p] the
    dict and the state after line 123. *)
Variables (self : Resource) (data : option loc) (files : option dict).
Variables (allowed : list string) (fake : option string) (st : State).
Variables (allowed1 : list string) (st1 : State) (bf : BoundForm).
Hypothesis Hfake : set_fake_data data allowed fake st = Some (allowed1, st1).
Hypothesis Hbind :
  get_bound_form self (view st1) (deref st1 data) files None = Some bf.

(** C1: an invocation returns cleaned data exactly when the bound form is
    valid and unknown fields are allowed or there is none (with one unit
    of fuel the invocation is seen alone); in every other case it takes
    the failure path: the retry, or a 400 response. *)
Theorem validate_succeeds_iff :
  let d := default ∅ (deref st1 data) in
  let U := unknown_fields_of (dom d) (set (form_fields bf)) (set allowed1) in
  let success :=
    is_valid bf && (allow_unknown_form_fields self || bool_decide (U = ∅)) in
  let silent := bool_decide (errors bf = ∅) && bool_decide (U = ∅) in
  let p := and_or_new_dict data (set_bound_form_instance bf st1) in
  ((∃ r st', _validate 1 self data files allowed fake st = Some (Return r, st'))
   ↔ success = true)
  ∧ ∀ n,
      if success
      then ∃ c st',
             _validate (S n) self data files allowed fake st
             = Some (Return (Cleaned c), st')
      else _validate (S n) self data files allowed fake st
           = if silent
             then match fake with
                  | None => _validate n self (Some p.1) (Some (default ∅ files))
                              allowed1 (Some "_fake_data") p.2
                  | Some _ => Some (ErrorResponse 400 no_content_detail, p.2)
                  end
             else Some (ErrorResponse 400 (error_detail bf U), p.2).
Proof.
  intros d U success silent p. split.
  - rewrite (_validate_pass 0 _ _ _ _ _ _ _ _ _ Hfake Hbind).
    fold d. fold U. fold success. fold silent.
    destruct success; [split; eauto |].
    split; [| discriminate]. intros (r & st' & H). exfalso.
    destruct silent; [destruct fake |]; simpl in H; discriminate.
  - intros n. rewrite (_validate_pass n _ _ _ _ _ _ _ _ _ Hfake Hbind).
    fold d. fold U. fold success. fold silent. fold p.
    destruct success; [eauto | reflexivity].
Qed.

(** C2: a key is unknown exactly when it is a key of the data, is no
    field of the form, is not an allowed extra field and is none of the
    three reserved keys; a reserved key is never unknown; and when the
    invocation fails, every unknown key has the entry
    ["This field does not exist."] in the field errors of the 400
    response. *)
Theorem unknown_fields_reported :
  let d := default ∅ (deref st1 data) in
  let U := unknown_fields_of (dom d) (set (form_fields bf)) (set allowed1) in
  let success :=
    is_valid bf && (allow_unknown_form_fields self || bool_decide (U = ∅)) in
  (∀ k, k ∈ U ↔
        k ∈ dom d ∧ (k ∉ set (form_fields bf)) ∧ (k ∉ set allowed1)
        ∧ k ≠ "csrfmiddlewaretoken" ∧ k ≠ "_accept" ∧ k ≠ "_method")
  ∧ (("csrfmiddlewaretoken" ∉ U) ∧ ("_accept" ∉ U) ∧ ("_method" ∉ U))
  ∧ ∀ n k, k ∈ U → success = false →
      ∃ detail fe st',
        _validate (S n) self data files allowed fake st
        = Some (ErrorResponse 400 detail, st')
        ∧ detail_field_errors detail = Some fe
        ∧ fe !! k = Some ["This field does not exist."].
Proof.
  intros d U success.
  assert (∀ k, k ∈ U ↔
        k ∈ dom d ∧ (k ∉ set (form_fields bf)) ∧ (k ∉ set allowed1)
        ∧ k ≠ "csrfmiddlewaretoken" ∧ k ≠ "_accept" ∧ k ≠ "_method") as HU.
  { intros k. unfold U. rewrite elem_of_unknown_fields_of, elem_of_reserved_keys. tauto. }
  split; [exact HU |]. split.
  - repeat split; rewrite HU; tauto.
  - intros n k Hk Hfail.
    rewrite (_validate_pass n _ _ _ _ _ _ _ _ _ Hfake Hbind).
    fold d. fold U. fold success. rewrite Hfail.
    assert (U ≠ ∅) as Hne by (intros He; rewrite He in Hk; by apply not_elem_of_empty in Hk).
    rewrite (bool_decide_eq_false_2 _ Hne), andb_false_r.
    assert (field_errors_of bf U !! k = Some ["This field does not exist."]) as Hfe.
    { rewrite lookup_field_errors_of. by rewrite decide_True. }
    eexists _, (field_errors_of bf U), _. split; [reflexivity |]. split; [| exact Hfe].
    unfold error_detail. simpl. rewrite bool_decide_eq_false_2; [done |].
    intros He. rewrite He, lookup_empty in Hfe. discriminate.
Qed.

(** C5: on the success path the mapping returned is the cleaned data of
    the form, with the input value copied under every allowed extra key
    of the data that the cleaned data lacks, and nothing else changed.
    On the failure path the invocation retries or raises, and in the
    field errors raised an allowed extra key has only what the form
    reports for it, never the input value. *)
Theorem extra_fields_pass_through :
  let d := default ∅ (deref st1 data) in
  let U := unknown_fields_of (dom d) (set (form_fields bf)) (set allowed1) in
  let success :=
    is_valid bf && (allow_unknown_form_fields self || bool_decide (U = ∅)) in
  let p := and_or_new_dict data (set_bound_form_instance bf st1) in
  (success = true → ∀ n,
     ∃ c st',
       _validate (S n) self data files allowed fake st = Some (Return (Cleaned c), st')
       ∧ (∀ k, k ∈ (set allowed1 ∩ dom d) ∖ dom (cleaned_data bf) → c !! k = d !! k)
       ∧ (∀ k, k ∉ (set allowed1 ∩ dom d) ∖ dom (cleaned_data bf) →
               c !! k = cleaned_data bf !! k))
  ∧ (success = false → ∀ n,
       _validate (S n) self data files allowed fake st
       = _validate n self (Some p.1) (Some (default ∅ files)) allowed1
           (Some "_fake_data") p.2
       ∨ ∃ detail st',
           _validate (S n) self data files allowed fake st
           = Some (ErrorResponse 400 detail, st')
           ∧ ∀ fe k, detail_field_errors detail = Some fe → k ∈ set allowed1 →
               fe !! k = if startswith k "__" then None
                         else map unicode <$> errors bf !! k).
Proof.
  intros d U success p. split.
  - intros Hs n. rewrite (_validate_pass n _ _ _ _ _ _ _ _ _ Hfake Hbind).
    fold d. fold U. fold success. rewrite Hs.
    eexists _, _. split; [reflexivity |].
    split; intros k Hk; rewrite lookup_add_extra_fields.
    + apply elem_of_difference in Hk as [[HA Hd]%elem_of_intersection Hc].
      apply not_elem_of_dom in Hc. rewrite Hc. by rewrite decide_True.
    + destruct (cleaned_data bf !! k) as [v|] eqn:Hc; [done |].
      destruct (decide (k ∈ set allowed1)) as [HA|HA]; [| done].
      destruct (d !! k) as [v|] eqn:Hd; [| done].
      exfalso. apply Hk.
      rewrite elem_of_difference, elem_of_intersection, !elem_of_dom, Hd, Hc.
      split; [eauto | by intros []].
  - intros Hs n. rewrite (_validate_pass n _ _ _ _ _ _ _ _ _ Hfake Hbind).
    fold d. fold U. fold success. fold p. rewrite Hs.
    destruct (bool_decide (errors bf = ∅) && bool_decide (U = ∅)).
    + destruct fake; [right | by left].
      eexists _, _. split; [reflexivity |]. intros fe k Hfe. discriminate.
    + right. eexists _, _. split; [reflexivity |].
      intros fe k Hfe HA. unfold error_detail in Hfe. simpl in Hfe.
      destruct (bool_decide (field_errors_of bf U = ∅)); [discriminate |].
      injection Hfe as <-. rewrite lookup_field_errors_of.
      rewrite decide_False; [done |].
      unfold U. rewrite elem_of_unknown_fields_of. tauto.
Qed.

End pass.

(** ** The retry *)

(** With a fake key already given, an invocation does not call itself:
    its result does not depend on the fuel left. *)
Lemma _validate_fake_total (self : Resource) (data : option loc) (files : option dict)
    (allowed : list string) (fd : string) (st : State) :
  ∃ r, ∀ n, _validate (S n) self data files allowed (Some fd) st = Some r.
Proof.
  destruct (set_fake_data data allowed (Some fd) st) as [[allowed1 st1]|] eqn:Hfake.
  - destruct (get_bound_form self (view st1) (deref st1 data) files None)
      as [bf|] eqn:Hbind.
    + pose proof (λ n, _validate_pass n _ _ _ _ _ _ _ _ _ Hfake Hbind) as Hpass.
      cbv beta iota zeta in Hpass.
      repeat match type of Hpass with
             | context [if ?b then _ else _] => destruct b
             end; eexists; intros n; rewrite Hpass; reflexivity.
    + eexists. intros n. by apply (_validate_unbound n _ _ _ _ _ _ _ _ Hfake).
  - eexists. intros n. cbn [_validate]. by rewrite Hfake.
Qed.

(** Called without a fake key, two invocations are all there is. *)
Lemma _validate_total (self : Resource) (data : option loc) (files : option dict)
    (allowed : list string) (st : State) :
  ∃ r, ∀ n, _validate (S (S n)) self data files allowed None st = Some r.
Proof.
  assert (set_fake_data data allowed None st = Some (allowed, st)) as Hfake by done.
  destruct (get_bound_form self (view st) (deref st data) files None)
    as [bf|] eqn:Hbind.
  - set (p := and_or_new_dict data (set_bound_form_instance bf st)).
    destruct (_validate_fake_total self (Some p.1) (Some (default ∅ files)) allowed
                "_fake_data" p.2) as [r2 Hr2].
    pose proof (λ n, _validate_pass (S n) _ _ _ _ _ _ _ _ _ Hfake Hbind) as Hpass.
    cbv beta iota zeta in Hpass. fold p in Hpass.
    repeat match type of Hpass with
           | context [if ?b then _ else _] => destruct b
           end; eexists; intros n; rewrite Hpass, ?Hr2; reflexivity.
  - eexists. intros n. by apply (_validate_unbound (S n) _ _ _ _ _ _ _ _ Hfake).
Qed.

(** C3: an invocation that was given the fake key never calls itself
    (any fuel gives the result of one invocation); if its form is still
    invalid with no error and no unknown field it raises the 400 response
    whose detail has the ['errors'] member ["No content was supplied."]
    and no field errors; and a call without fake key is over after two
    invocations at most, that is two bindings of a form. *)
Theorem retry_at_most_once (self : Resource) (data : option loc)
    (files : option dict) (allowed : list string) (st : State) :
  (∀ fd, ∃ r, ∀ n, _validate (S n) self data files allowed (Some fd) st = Some r)
  ∧ (∀ fd allowed1 st1 bf,
       set_fake_data data allowed (Some fd) st = Some (allowed1, st1) →
       get_bound_form self (view st1) (deref st1 data) files None = Some bf →
       is_valid bf = false →
       errors bf = ∅ →
       unknown_fields_of (dom (default ∅ (deref st1 data)))
         (set (form_fields bf)) (set allowed1) = ∅ →
       ∀ n, ∃ st',
         _validate (S n) self data files allowed (Some fd) st
         = Some (ErrorResponse 400
                   {| detail_errors := Some [VStr "No content was supplied."];
                      detail_field_errors := None |},
                 st'))
  ∧ ∃ r, ∀ n, _validate (S (S n)) self data files allowed None st = Some r.
Proof.
  split; [| split].
  - intros fd. apply _validate_fake_total.
  - intros fd allowed1 st1 bf Hfake Hbind Hinv Herr HU n.
    rewrite (_validate_pass n _ _ _ _ _ _ _ _ _ Hfake Hbind).
    rewrite Hinv, Herr, HU. simpl. rewrite !bool_decide_eq_true_2 by done.
    simpl. eauto.
  - apply _validate_total.
Qed.

Lemma and_or_new_dict_nonempty (l : loc) (st : State) :
  content st l ≠ ∅ → and_or_new_dict (Some l) st = (l, st).
Proof. intros Hne. simpl. by rewrite bool_decide_eq_false_2. Qed.

Lemma content_setitem (l : loc) (key : string) (v : value) (st : State) :
  content (setitem l key v st) l = <[key := v]> (content st l).
Proof. unfold content at 1, setitem. simpl. by rewrite lookup_insert_eq. Qed.

(** The second invocation, made by the first on the dict [p.1] that holds
    what the first one validated. *)
Lemma _validate_retry (n : nat) (self : Resource) (data : option loc)
    (files : option dict) (allowed : list string) (st : State) (bf1 bf2 : BoundForm) :
  let p := and_or_new_dict data (set_bound_form_instance bf1 st) in
  let d2 := <["_fake_data" := VStr "_fake_data"]> (default ∅ (deref st data)) in
  let allowed2 := (allowed ++ ["_fake_data"])%list in
  let U2 := unknown_fields_of (dom d2) (set (form_fields bf2)) (set allowed2) in
  let cleaned := add_extra_fields (set allowed2) (dom d2) d2 (cleaned_data bf2) in
  let st2 :=
    set_bound_form_instance bf2 (setitem p.1 "_fake_data" (VStr "_fake_data") p.2) in
  get_bound_form self (view st) (Some d2) (Some (default ∅ files)) None = Some bf2 →
  _validate (S n) self (Some p.1) (Some (default ∅ files)) allowed (Some "_fake_data") p.2
  = if is_valid bf2 && (allow_unknown_form_fields self || bool_decide (U2 = ∅))
    then Some (Return (Cleaned cleaned),
               set_bound_form_instance (with_cleaned_data bf2 cleaned) st2)
    else if bool_decide (errors bf2 = ∅) && bool_decide (U2 = ∅)
    then Some (ErrorResponse 400 no_content_detail, st2)
    else Some (ErrorResponse 400 (error_detail bf2 U2), st2).
Proof.
  intros p d2 allowed2 U2 cleaned st2 Hbind.
  set (st1 := setitem p.1 "_fake_data" (VStr "_fake_data") p.2).
  assert (set_fake_data (Some p.1) allowed (Some "_fake_data") p.2
          = Some (allowed2, st1)) as Hfake by reflexivity.
  assert (content st1 p.1 = d2) as Hc.
  { unfold st1. rewrite content_setitem. unfold p.
    by rewrite content_and_or_new_dict. }
  assert (get_bound_form self (view st1) (deref st1 (Some p.1))
            (Some (default ∅ files)) None = Some bf2) as Hbind'.
  { change (view st1) with (view p.2). unfold p at 1.
    rewrite view_and_or_new_dict. simpl deref. rewrite Hc.
    change (view (set_bound_form_instance bf1 st))
      with (with_bound_form_instance (view st) bf1).
    by rewrite get_bound_form_with_bound_form_instance. }
  rewrite (_validate_pass n _ _ _ _ _ _ _ _ _ Hfake Hbind').
  rewrite and_or_new_dict_nonempty.
  - simpl deref. rewrite Hc. reflexivity.
  - change (content (set_bound_form_instance bf2 st1) p.1) with (content st1 p.1).
    rewrite Hc. unfold d2. apply insert_non_empty.
Qed.

(** A call without fake key, case by case. *)
Lemma _validate_cases (self : Resource) (data : option loc) (files : option dict)
    (allowed : list string) (st : State) :
  let d1 := default ∅ (deref st data) in
  match get_bound_form self (view st) (deref st data) files None with
  | None => ∀ n, _validate (S n) self data files allowed None st
                 = Some (Return (Data data), st)
  | Some bf1 =>
      let p := and_or_new_dict data (set_bound_form_instance bf1 st) in
      let U1 := unknown_fields_of (dom d1) (set (form_fields bf1)) (set allowed) in
      let cleaned1 := add_extra_fields (set allowed) (dom d1) d1 (cleaned_data bf1) in
      if is_valid bf1 && (allow_unknown_form_fields self || bool_decide (U1 = ∅))
      then ∀ n, _validate (S n) self data files allowed None st
                = Some (Return (Cleaned cleaned1),
                        set_bound_form_instance (with_cleaned_data bf1 cleaned1) p.2)
      else if bool_decide (errors bf1 = ∅) && bool_decide (U1 = ∅)
      then
        let d2 := <["_fake_data" := VStr "_fake_data"]> d1 in
        let allowed2 := (allowed ++ ["_fake_data"])%list in
        ∃ bf2,
          get_bound_form self (view st) (Some d2) (Some (default ∅ files)) None
          = Some bf2
          ∧ _validate 1 self data files allowed None st = None
          ∧ let U2 := unknown_fields_of (dom d2) (set (form_fields bf2)) (set allowed2) in
            let cleaned2 := add_extra_fields (set allowed2) (dom d2) d2 (cleaned_data bf2) in
            let st2 :=
              set_bound_form_instance bf2
                (setitem p.1 "_fake_data" (VStr "_fake_data") p.2) in
            ∀ n, _validate (S (S n)) self data files allowed None st
                 = if is_valid bf2
                      && (allow_unknown_form_fields self || bool_decide (U2 = ∅))
                   then Some (Return (Cleaned cleaned2),
                              set_bound_form_instance (with_cleaned_data bf2 cleaned2) st2)
                   else if bool_decide (errors bf2 = ∅) && bool_decide (U2 = ∅)
                   then Some (ErrorResponse 400 no_content_detail, st2)
                   else Some (ErrorResponse 400 (error_detail bf2 U2), st2)
      else ∀ n, _validate (S n) self data files allowed None st
                = Some (ErrorResponse 400 (error_detail bf1 U1), p.2)
  end.
Proof.
  intros d1.
  assert (set_fake_data data allowed None st = Some (allowed, st)) as Hfake by done.
  destruct (get_bound_form self (view st) (deref st data) files None)
    as [bf1|] eqn:Hbind.
  - pose proof (λ n, _validate_pass n _ _ _ _ _ _ _ _ _ Hfake Hbind) as Hpass.
    cbv beta iota zeta in Hpass. fold d1 in Hpass. cbv zeta.
    destruct (is_valid bf1 && _); [exact Hpass |].
    destruct (bool_decide (errors bf1 = ∅) && _); [| exact Hpass].
    destruct (get_bound_form_Some self (view st) _ _
                (Some (<["_fake_data" := VStr "_fake_data"]> d1))
                (Some (default ∅ files)) _ Hbind) as [bf2 Hbind2].
    exists bf2. split; [exact Hbind2 |]. split; [by rewrite Hpass |].
    intros n. rewrite Hpass. by apply _validate_retry.
  - intros n. by apply (_validate_unbound n _ _ _ _ _ _ _ _ Hfake).
Qed.

(** The allowed extra fields [validate_request] passes on. *)
Lemma validate_request_unfold (self : Resource) (data : option loc)
    (files : option dict) (st : State) :
  ∃ allowed, ∀ fuel, validate_request fuel self data files st
                     = _validate fuel self data files allowed None st.
Proof. unfold validate_request. destruct (cls self); eauto. Qed.

(** After the retry on content without key, only the fake key is seen,
    and it is allowed: no field is unknown. *)
Lemma unknown_fields_of_fake_only (own : gset string) (allowed : list string) :
  unknown_fields_of (dom (<["_fake_data" := VStr "_fake_data"]> (∅ : dict))) own
    (set (allowed ++ ["_fake_data"])) = ∅.
Proof.
  apply set_eq. intros k.
  rewrite elem_of_unknown_fields_of, elem_of_dom, elem_of_set, elem_of_app.
  split; [| by intros ?%not_elem_of_empty].
  intros ([v Hk] & _ & Hna & _). exfalso. apply Hna. right.
  destruct (decide (k = "_fake_data")) as [->|Hne]; [by left |].
  rewrite lookup_insert_ne in Hk by done. by rewrite lookup_empty in Hk.
Qed.

(** C4, as stated, fails: an empty dict against a form that is invalid
    without error or unknown field is retried, and when the form is
    valid on the retried content the call returns, here the cleaned
    data with the fake key in it.  The same happens with a form in the
    manner of Django whose fields are optional, when neither data nor
    files are given. *)
Lemma empty_input_accepted_after_retry :
  (∃ bf, get_bound_form (form_resource (Some silent_form)) plain_view
           (deref (one_dict ∅) (Some 1%positive)) None None = Some bf
         ∧ is_valid bf = false ∧ errors bf = ∅ ∧ form_fields bf = [])
  ∧ (∃ st', validate_request 2 (form_resource (Some silent_form))
              (Some 1%positive) None (one_dict ∅)
            = Some (Return (Cleaned {[ "_fake_data" := VStr "_fake_data" ]}), st'))
  ∧ ∃ st', validate_request 2 (form_resource (Some optional_form)) None None
             (one_dict ∅)
           = Some (Return (Cleaned {[ "name" := VStr "";
                                      "_fake_data" := VStr "_fake_data" ]}), st').
Proof.
  split; [| split].
  - eexists. split; [vm_compute; reflexivity |]. repeat split.
  - eexists. vm_compute. reflexivity.
  - eexists. vm_compute. reflexivity.
Qed.

(** C4, amended: for data that is [None] or an empty dict, against a form
    that is invalid without any error, the call makes exactly one retry
    (one invocation is not enough, two always are), on the content that
    has the fake key alone; it returns cleaned data when the form bound
    on the retry is valid, and otherwise raises the 400 response, whose
    detail has the ['errors'] member ["No content was supplied."] and no
    field errors when that form has no error either, and is the error
    detail of that form when it has. *)
Theorem empty_input_retried_once (self : Resource) (data : option loc)
    (files : option dict) (st : State) (bf1 : BoundForm) :
  default ∅ (deref st data) = ∅ →
  get_bound_form self (view st) (deref st data) files None = Some bf1 →
  is_valid bf1 = false →
  errors bf1 = ∅ →
  ∃ bf2,
    get_bound_form self (view st) (Some {[ "_fake_data" := VStr "_fake_data" ]})
      (Some (default ∅ files)) None = Some bf2
    ∧ validate_request 1 self data files st = None
    ∧ ∀ n, ∃ out st',
        validate_request (S (S n)) self data files st = Some (out, st')
        ∧ if is_valid bf2 then ∃ c, out = Return (Cleaned c)
          else if bool_decide (errors bf2 = ∅)
          then out = ErrorResponse 400
                       {| detail_errors := Some [VStr "No content was supplied."];
                          detail_field_errors := None |}
          else out = ErrorResponse 400 (error_detail bf2 ∅).
Proof.
  intros Hd Hbind Hinv Herr.
  assert (∀ allowed,
            unknown_fields_of (dom (default ∅ (deref st data)))
              (set (form_fields bf1)) (set allowed) = ∅) as HU1.
  { intros allowed. rewrite Hd. apply set_eq. intros k.
    rewrite elem_of_unknown_fields_of, dom_empty_L.
    split; [by intros [?%not_elem_of_empty _] | by intros ?%not_elem_of_empty]. }
  assert (∀ allowed, ∃ bf2,
    get_bound_form self (view st) (Some {[ "_fake_data" := VStr "_fake_data" ]})
      (Some (default ∅ files)) None = Some bf2
    ∧ _validate 1 self data files allowed None st = None
    ∧ ∀ n, ∃ out st',
        _validate (S (S n)) self data files allowed None st = Some (out, st')
        ∧ if is_valid bf2 then ∃ c, out = Return (Cleaned c)
          else if bool_decide (errors bf2 = ∅)
          then out = ErrorResponse 400
                       {| detail_errors := Some [VStr "No content was supplied."];
                          detail_field_errors := None |}
          else out = ErrorResponse 400 (error_detail bf2 ∅)) as Hall.
  { intros allowed.
    pose proof (_validate_cases self data files allowed st) as Hcases.
    cbv zeta in Hcases. rewrite Hbind, Hinv, Herr, HU1, Hd in Hcases.
    rewrite !bool_decide_eq_true_2 in Hcases by done. simpl andb in Hcases.
    cbv iota in Hcases. rewrite insert_empty in Hcases.
    destruct Hcases as (bf2 & Hbind2 & Hone & Htwo).
    exists bf2. split; [exact Hbind2 |]. split; [exact Hone |].
    intros n. rewrite Htwo. rewrite <- insert_empty.
    rewrite unknown_fields_of_fake_only.
    rewrite !bool_decide_eq_true_2 by done. rewrite orb_true_r, !andb_true_r.
    destruct (is_valid bf2); [by eauto |].
    destruct (bool_decide (errors bf2 = ∅)); eauto. }
  unfold validate_request. destruct (cls self); apply Hall.
Qed.

Lemma empty_input_retried_once_witness :
  ∃ bf2,
    get_bound_form (form_resource (Some (mute_form []))) plain_view
      (Some {[ "_fake_data" := VStr "_fake_data" ]}) (Some ∅) None = Some bf2
    ∧ validate_request 1 (form_resource (Some (mute_form []))) (Some 1%positive) None
        (one_dict ∅) = None
    ∧ ∀ n, ∃ out st',
        validate_request (S (S n)) (form_resource (Some (mute_form []))) (Some 1%positive)
          None (one_dict ∅) = Some (out, st')
        ∧ if is_valid bf2 then ∃ c, out = Return (Cleaned c)
          else if bool_decide (errors bf2 = ∅)
          then out = ErrorResponse 400
                       {| detail_errors := Some [VStr "No content was supplied."];
                          detail_field_errors := None |}
          else out = ErrorResponse 400 (error_detail bf2 ∅).
Proof.
  apply (empty_input_retried_once (form_resource (Some (mute_form []))) (Some 1%positive)
           None (one_dict ∅) (construct (mute_form []) None (Some ∅) None));
    vm_compute; reflexivity.
Defined.

(** ** The error detail *)

(** What the detail built on lines 159-176 holds. *)
Lemma error_detail_entries (bf : BoundForm) (U : gset string) :
  (∀ k, k ∈ U → k ∉ set (form_fields bf)) →
  (∀ errs, detail_errors (error_detail bf U) = Some errs → errs = non_field_errors bf)
  ∧ ∀ fe k msgs,
      detail_field_errors (error_detail bf U) = Some fe →
      fe !! k = Some msgs →
      (msgs = ["This field does not exist."] ∧ k ∉ set (form_fields bf))
      ∨ (startswith k "__" = false
         ∧ ∃ raw, errors bf !! k = Some raw ∧ msgs = map unicode raw).
Proof.
  intros HU. unfold error_detail. simpl. split.
  - intros errs. destruct (non_field_errors bf); [discriminate | by intros [= <-]].
  - intros fe k msgs Hfe Hk.
    destruct (bool_decide (field_errors_of bf U = ∅)); [discriminate |].
    injection Hfe as <-. rewrite lookup_field_errors_of in Hk.
    destruct (decide (k ∈ U)) as [Hin|Hnin].
    + left. injection Hk as <-. split; [done | by apply HU].
    + right. destruct (startswith k "__"); [discriminate |].
      split; [done |]. destruct (errors bf !! k) as [raw|]; [| discriminate].
      exists raw. split; [done |]. simpl in Hk. congruence.
Qed.

Lemma unknown_fields_of_not_own (seen own allowed : gset string) (k : string) :
  k ∈ unknown_fields_of seen own allowed → k ∉ own.
Proof. rewrite elem_of_unknown_fields_of. tauto. Qed.

(** C6, as stated, fails: a call whose data has the unknown key [__x],
    against a form that fails with a non-field error that is a number,
    raises a 400 response in which the field errors have an entry under
    that key, although it starts with two underscores, and in which the
    ['errors'] member holds the number as the form gave it. *)
Lemma unknown_key_with_reserved_prefix_reported :
  (∃ st',
     validate_request 2 (form_resource (Some failing_form)) (Some 1%positive) None
       (one_dict {[ "__x" := VStr "1" ]})
     = Some (ErrorResponse 400
               {| detail_errors := Some [VInt 3];
                  detail_field_errors :=
                    Some {[ "__x" := ["This field does not exist."];
                            "name" := ["This field is required."] ]} |},
             st'))
  ∧ startswith "__x" "__" = true
  ∧ is_text (VInt 3) = false.
Proof.
  split; [| split; reflexivity]. eexists. vm_compute. reflexivity.
Qed.

(** C6, amended: [validate_request] either returns, or raises exactly one
    [ErrorResponse], of status 400.  The ['errors'] member of its detail,
    when there is one, is ["No content was supplied."] or the non-field
    errors of the form bound last, as the form gives them.  Every entry of
    the ['field_errors'] member is either the message
    ["This field does not exist."] under a key that is no field of the
    form (whatever the key starts with), or, under a name that does not
    start with two underscores, the messages the form reports for it,
    each coerced by [unicode]. *)
Theorem validate_request_outcome (n : nat) (self : Resource) (data : option loc)
    (files : option dict) (st : State) :
  ∃ out st',
    validate_request (S (S n)) self data files st = Some (out, st')
    ∧ ((∃ r, out = Return r)
       ∨ ∃ detail bf,
           out = ErrorResponse 400 detail
           ∧ bound_form_instance (view st') = Some bf
           ∧ (∀ errs, detail_errors detail = Some errs →
                errs = [VStr "No content was supplied."] ∨ errs = non_field_errors bf)
           ∧ ∀ fe k msgs,
               detail_field_errors detail = Some fe →
               fe !! k = Some msgs →
               (msgs = ["This field does not exist."] ∧ k ∉ set (form_fields bf))
               ∨ (startswith k "__" = false
                  ∧ ∃ raw, errors bf !! k = Some raw ∧ msgs = map unicode raw)).
Proof.
  destruct (validate_request_unfold self data files st) as [allowed ->].
  pose proof (_validate_cases self data files allowed st) as Hcases.
  cbv zeta in Hcases.
  assert (∀ bf U st',
            (∀ k, k ∈ U → k ∉ set (form_fields bf)) →
            bound_form_instance (view st') = Some bf →
            ∃ detail bf0,
              ErrorResponse 400 (error_detail bf U) = ErrorResponse 400 detail
              ∧ bound_form_instance (view st') = Some bf0
              ∧ (∀ errs, detail_errors detail = Some errs →
                   errs = [VStr "No content was supplied."]
                   ∨ errs = non_field_errors bf0)
              ∧ ∀ fe k msgs,
                  detail_field_errors detail = Some fe →
                  fe !! k = Some msgs →
                  (msgs = ["This field does not exist."] ∧ k ∉ set (form_fields bf0))
                  ∨ (startswith k "__" = false
                     ∧ ∃ raw, errors bf0 !! k = Some raw ∧ msgs = map unicode raw))
    as Hdetail.
  { intros bf U st' HU Hview.
    destruct (error_detail_entries bf U HU) as [He Hfe].
    exists (error_detail bf U), bf. repeat split; [done | | done].
    intros errs Herrs. right. by apply He. }
  destruct (get_bound_form self (view st) (deref st data) files None) as [bf1|].
  - destruct (is_valid bf1 && _).
    { rewrite Hcases. eexists _, _. split; [reflexivity |]. left. eauto. }
    destruct (bool_decide (errors bf1 = ∅) && _).
    + destruct Hcases as (bf2 & _ & _ & Htwo). rewrite Htwo.
      destruct (is_valid bf2 && _).
      { eexists _, _. split; [reflexivity |]. left. eauto. }
      destruct (bool_decide (errors bf2 = ∅) && _).
      * eexists _, _. split; [reflexivity |]. right.
        exists no_content_detail, bf2. repeat split.
        -- intros errs [= <-]. by left.
        -- intros fe k msgs Hfe. discriminate.
      * eexists _, _. split; [reflexivity |]. right.
        apply Hdetail; [| reflexivity].
        intros k. apply unknown_fields_of_not_own.
    + rewrite Hcases. eexists _, _. split; [reflexivity |]. right.
      apply Hdetail.
      * intros k. apply unknown_fields_of_not_own.
      * by rewrite view_and_or_new_dict.
  - rewrite Hcases. eexists _, _. split; [reflexivity |]. left. eauto.
Qed.

(** ** Effects *)

Lemma heap_and_or_new_dict (data : option loc) (st : State) (l : loc) :
  l ∈ dom (heap st) → heap (and_or_new_dict data st).2 !! l = heap st !! l.
Proof.
  intros Hl.
  assert (heap (new_dict st).2 !! l = heap st !! l) as Hnew.
  { unfold new_dict. simpl. apply lookup_insert_ne. intros <-.
    by apply (is_fresh (dom (heap st))). }
  destruct data as [l0|]; simpl; [| exact Hnew].
  destruct (bool_decide (content st l0 = ∅)); [exact Hnew | done].
Qed.

(** For data without key, [data and data or {}] is a new dict. *)
Lemma and_or_new_dict_fresh (data : option loc) (st : State) :
  default ∅ (deref st data) = ∅ → (and_or_new_dict data st).1 ∉ dom (heap st).
Proof.
  intros Hd.
  assert ((new_dict st).1 ∉ dom (heap st)) as Hnew by apply is_fresh.
  destruct data as [l0|]; simpl in *; [| exact Hnew].
  by rewrite bool_decide_eq_true_2.
Qed.

(** C10, as stated, fails: a call that binds a form leaves that form in
    [bound_form_instance] on the view. *)
Lemma validate_request_writes_to_view :
  ∃ out st',
    validate_request 2 (form_resource (Some name_form)) (Some 1%positive) None
      (one_dict name_and_extra) = Some (out, st')
    ∧ bound_form_instance (view (one_dict name_and_extra)) = None
    ∧ bound_form_instance (view st')
      = Some (construct name_form None (Some name_and_extra) None).
Proof.
  eexists _, _. split; [vm_compute; reflexivity |]. split; reflexivity.
Qed.

(** The retry writes the fake key into the dict it is given: a form that
    stays silent on data that has a key makes the call write into the
    dict of the caller. *)
Lemma retry_writes_to_nonempty_data :
  ∃ out st',
    validate_request 2 (form_resource (Some (mute_form ["name"]))) (Some 1%positive) None
      (one_dict {[ "name" := VStr "a" ]}) = Some (out, st')
    ∧ heap st' !! 1%positive
      = Some {[ "name" := VStr "a"; "_fake_data" := VStr "_fake_data" ]}.
Proof.
  eexists _, _. split; [vm_compute; reflexivity |]. vm_compute. reflexivity.
Qed.

(** C10, amended: a call for which no form is bound changes nothing.  A
    call that binds a form changes the view in [bound_form_instance]
    only: every other attribute is as before, and [bound_form_instance]
    then holds the form bound last, that is the form bound on the data
    when the first invocation ends the call, and the form bound on the
    data with the fake key when it retries; what that form has as
    cleaned data is the mapping returned, when one is.  And the call
    leaves every dict that existed before it as it was, the data of the
    caller included, when the data has no key or when the first
    invocation does not retry. *)
Theorem validate_request_effects (n : nat) (self : Resource) (data : option loc)
    (files : option dict) (st : State) :
  ∃ out st',
    validate_request (S (S n)) self data files st = Some (out, st')
    ∧ match get_bound_form self (view st) (deref st data) files None with
      | None => st' = st
      | Some bf1 =>
          (∃ bf, view st' = with_bound_form_instance (view st) bf)
          ∧ (view_form (view st') = view_form (view st)
             ∧ view_method_forms (view st') = view_method_forms (view st)
             ∧ view_request (view st') = view_request (view st)
             ∧ view_method (view st') = view_method (view st)
             ∧ view_model (view st') = view_model (view st)
             ∧ view_model_instance (view st') = view_model_instance (view st))
          ∧ ∃ last bf,
              (is_Some (validate_request 1 self data files st) ∧ last = bf1
               ∨ validate_request 1 self data files st = None
                 ∧ get_bound_form self (view st)
                     (Some (<["_fake_data" := VStr "_fake_data"]>
                              (default ∅ (deref st data))))
                     (Some (default ∅ files)) None = Some last)
              ∧ bound_form_instance (view st') = Some bf
              ∧ form_fields bf = form_fields last
              ∧ is_valid bf = is_valid last
              ∧ errors bf = errors last
              ∧ non_field_errors bf = non_field_errors last
              ∧ match out with
                | Return (Cleaned c) => cleaned_data bf = c
                | _ => cleaned_data bf = cleaned_data last
                end
      end
    ∧ (default ∅ (deref st data) = ∅
       ∨ is_Some (validate_request 1 self data files st) →
       ∀ l, l ∈ dom (heap st) → heap st' !! l = heap st !! l).
Proof.
  destruct (validate_request_unfold self data files st) as [allowed Hallowed].
  rewrite !Hallowed. clear Hallowed.
  pose proof (_validate_cases self data files allowed st) as Hcases.
  cbv zeta in Hcases.
  destruct (get_bound_form self (view st) (deref st data) files None) as [bf1|].
  - set (p := and_or_new_dict data (set_bound_form_instance bf1 st)) in *.
    assert (view p.2 = with_bound_form_instance (view st) bf1) as Hview.
    { unfold p. by rewrite view_and_or_new_dict. }
    assert (∀ l, l ∈ dom (heap st) → heap p.2 !! l = heap st !! l) as Hheap.
    { intros l Hl. unfold p. by rewrite heap_and_or_new_dict. }
    destruct (is_valid bf1 && _).
    { rewrite !Hcases. eexists _, _. split; [reflexivity |]. split; [| by auto].
      simpl. rewrite Hview. split; [by eexists |]. split; [done |].
      eexists bf1, _. split; [left; split; [by eexists | done] |].
      split; [reflexivity |]. done. }
    destruct (bool_decide (errors bf1 = ∅) && _).
    + destruct Hcases as (bf2 & Hbind2 & Hone & Htwo). rewrite Htwo, Hone.
      assert (default ∅ (deref st data) = ∅ ∨ is_Some (@None (outcome * State)) →
              ∀ l, l ∈ dom (heap st) →
                <[p.1 := <["_fake_data" := VStr "_fake_data"]> (content p.2 p.1)]>
                  (heap p.2) !! l = heap st !! l) as Hframe.
      { intros [Hd|[r Hr]] l Hl; [| congruence].
        rewrite lookup_insert_ne; [by apply Hheap |].
        intros <-. by apply (and_or_new_dict_fresh data (set_bound_form_instance bf1 st)). }
      repeat match goal with |- context [if ?b then _ else _] => destruct b end;
        (eexists _, _; split; [reflexivity |]; split; [| exact Hframe]);
        simpl; rewrite Hview;
        (split; [by eexists |]); (split; [done |]);
        (eexists bf2, _; split; [right; split; [done | exact Hbind2] |]);
        (split; [reflexivity |]); done.
    + rewrite !Hcases. eexists _, _. split; [reflexivity |]. split; [| by auto].
      rewrite Hview. split; [by eexists |]. split; [done |].
      eexists bf1, _. split; [left; split; [by eexists | done] |].
      split; [reflexivity |]. done.
  - rewrite Hcases. eexists _, _. split; [reflexivity |]. split; [done | by auto].
Qed.

(** ** The documented examples *)

(** Form fields [{name}], no allowed extra field, input
    [{name: a, extra: x}]: the call is rejected, and the field errors
    are [{extra: [This field does not exist.]}]. *)
Lemma unknown_field_rejected :
  ∃ st',
    validate_request 2 (form_resource (Some name_form)) (Some 1%positive) None
      (one_dict name_and_extra)
    = Some (ErrorResponse 400
              {| detail_errors := None;
                 detail_field_errors :=
                   Some {[ "extra" := ["This field does not exist."] ]} |},
            st').
Proof. eexists. vm_compute. reflexivity. Qed.

(** The same with [extra] allowed: the value passes through. *)
Lemma allowed_extra_field_accepted :
  ∃ st',
    _validate 2 (form_resource (Some name_form)) (Some 1%positive) None ["extra"] None
      (one_dict name_and_extra)
    = Some (Return (Cleaned {[ "name" := VStr "a"; "extra" := VStr "x" ]}), st').
Proof. eexists. vm_compute. reflexivity. Qed.

(** A reserved key beside a valid field is not unknown. *)
Lemma reserved_key_accepted :
  ∃ st',
    validate_request 2 (form_resource (Some name_form)) (Some 1%positive) None
      (one_dict {[ "name" := VStr "a"; "_method" := VStr "PUT" ]})
    = Some (Return (Cleaned {[ "name" := VStr "a" ]}), st').
Proof. eexists. vm_compute. reflexivity. Qed.

(** ** Instances of the claims that have hypotheses *)

Lemma validate_succeeds_iff_witness :
  ∃ r st',
    _validate 1 (form_resource (Some name_form)) (Some 1%positive) None ["extra"] None
      (one_dict name_and_extra) = Some (Return r, st').
Proof.
  assert (set_fake_data (Some 1%positive) ["extra"] None (one_dict name_and_extra)
          = Some (["extra"], one_dict name_and_extra)) as Hfake by reflexivity.
  assert (get_bound_form (form_resource (Some name_form))
            (view (one_dict name_and_extra))
            (deref (one_dict name_and_extra) (Some 1%positive)) None None
          = Some (construct name_form None (Some name_and_extra) None)) as Hbind
    by (vm_compute; reflexivity).
  destruct (validate_succeeds_iff _ _ _ _ _ _ _ _ _ Hfake Hbind) as [Hiff _].
  apply Hiff. vm_compute. reflexivity.
Defined.

Lemma unknown_fields_reported_witness :
  ∃ detail fe st',
    _validate 1 (form_resource (Some name_form)) (Some 1%positive) None [] None
      (one_dict name_and_extra) = Some (ErrorResponse 400 detail, st')
    ∧ detail_field_errors detail = Some fe
    ∧ fe !! "extra" = Some ["This field does not exist."].
Proof.
  assert (set_fake_data (Some 1%positive) [] None (one_dict name_and_extra)
          = Some ([], one_dict name_and_extra)) as Hfake by reflexivity.
  assert (get_bound_form (form_resource (Some name_form))
            (view (one_dict name_and_extra))
            (deref (one_dict name_and_extra) (Some 1%positive)) None None
          = Some (construct name_form None (Some name_and_extra) None)) as Hbind
    by (vm_compute; reflexivity).
  destruct (unknown_fields_reported _ _ _ _ _ _ _ _ _ Hfake Hbind) as (_ & _ & Hrep).
  apply (Hrep 0 "extra").
  - by_evaluation.
  - vm_compute. reflexivity.
Defined.

Lemma extra_fields_pass_through_witness :
  ∃ c st',
    _validate 1 (form_resource (Some name_form)) (Some 1%positive) None ["extra"] None
      (one_dict name_and_extra) = Some (Return (Cleaned c), st')
    ∧ c !! "extra" = Some (VStr "x")
    ∧ c !! "name" = Some (VStr "a").
Proof.
  assert (set_fake_data (Some 1%positive) ["extra"] None (one_dict name_and_extra)
          = Some (["extra"], one_dict name_and_extra)) as Hfake by reflexivity.
  assert (get_bound_form (form_resource (Some name_form))
            (view (one_dict name_and_extra))
            (deref (one_dict name_and_extra) (Some 1%positive)) None None
          = Some (construct name_form None (Some name_and_extra) None)) as Hbind
    by (vm_compute; reflexivity).
  destruct (extra_fields_pass_through _ _ _ _ _ _ _ _ _ Hfake Hbind) as [Hok _].
  destruct (Hok ltac:(vm_compute; reflexivity) 0) as (c & st' & Hrun & Hextra & Hrest).
  exists c, st'. split; [exact Hrun |]. split.
  - rewrite Hextra; [vm_compute; reflexivity |].
    by_evaluation.
  - rewrite Hrest; [vm_compute; reflexivity |].
    by_evaluation.
Defined.

Lemma retry_at_most_once_witness :
  ∃ st',
    _validate 1 (form_resource (Some (mute_form []))) (Some 1%positive) None []
      (Some "_fake_data") (one_dict ∅)
    = Some (ErrorResponse 400
              {| detail_errors := Some [VStr "No content was supplied."];
                 detail_field_errors := None |},
            st').
Proof.
  destruct (retry_at_most_once (form_resource (Some (mute_form []))) (Some 1%positive)
              None [] (one_dict ∅)) as (_ & Hsilent & _).
  apply (Hsilent "_fake_data" ["_fake_data"]
           (setitem 1%positive "_fake_data" (VStr "_fake_data") (one_dict ∅))
           (construct (mute_form []) None None None));
    reflexivity.
Defined.

(** ** Further properties: the choice of the form class *)

Lemma lower_ascii_idemp (c : Ascii.ascii) : lower_ascii (lower_ascii c) = lower_ascii c.
Proof. destruct c as [[] [] [] [] [] [] [] []]; reflexivity. Qed.

Lemma lower_idemp (s : string) : lower (lower s) = lower s.
Proof.
  induction s as [|c s IH]; simpl; [done |]. by rewrite lower_ascii_idemp, IH.
Qed.

Lemma truthy_str_lower (m : string) :
  truthy_str (Some (lower m)) = truthy_str (Some m).
Proof. by destruct m. Qed.

(** X1: for a method that is given and not empty, the form class is
    looked up in this order: the method form of the view, the method form
    of the resource, the form of the view, the form of the resource.  A
    method form that is set, even to [None], ends the search. *)
Theorem get_form_class_precedence (self : Resource) (v : View) (m : string) :
  m ≠ "" →
  let name := lower m ++ "_form" in
  (∀ a, view_method_forms v !! name = Some a → get_form_class self v (Some m) = a)
  ∧ (∀ a, view_method_forms v !! name = None → method_forms self !! name = Some a →
          get_form_class self v (Some m) = a)
  ∧ (∀ f, view_method_forms v !! name = None → method_forms self !! name = None →
          view_form v = Some f → get_form_class self v (Some m) = Some f)
  ∧ (view_method_forms v !! name = None → method_forms self !! name = None →
     view_form v = None → get_form_class self v (Some m) = form self).
Proof.
  intros Hm name.
  assert (truthy_str (Some m) = true) as Ht.
  { simpl. destruct (String.eqb_spec m ""); [done | reflexivity]. }
  unfold get_form_class. rewrite Ht. fold name. unfold getattr.
  repeat split.
  - intros a ->. reflexivity.
  - intros a -> ->. reflexivity.
  - intros f -> -> ->. reflexivity.
  - intros -> -> ->. reflexivity.
Qed.

Lemma get_form_class_precedence_witness :
  get_form_class (form_resource (Some name_form))
    (request_view "GET" {[ "post_form" := Some optional_form ]}) (Some "POST")
  = Some optional_form.
Proof.
  assert ("POST" ≠ "") as Hm by discriminate.
  destruct (get_form_class_precedence (form_resource (Some name_form))
              (request_view "GET" {[ "post_form" := Some optional_form ]}) "POST" Hm)
    as [Hview _].
  apply Hview. vm_compute. reflexivity.
Defined.

(** X2: when no method is given, the method is the [method] attribute of
    the view, or else the method of its request; a view without request
    has no method, whatever its [method] attribute, and then the method
    forms are not looked at. *)
Theorem get_form_class_default_method (self : Resource) (v : View) :
  match view_request v with
  | Some rm =>
      get_form_class self v None
      = get_form_class self v (Some (default rm (view_method v)))
  | None =>
      get_form_class self v None
      = match view_form v with Some f => Some f | None => form self end
  end.
Proof.
  unfold get_form_class.
  destruct (view_request v) as [rm|], (view_method v) as [vm|]; reflexivity.
Qed.

(** X3: the method is taken without regard to case. *)
Theorem get_form_class_lower (self : Resource) (v : View) (m : string) :
  get_form_class self v (Some (lower m)) = get_form_class self v (Some m).
Proof.
  unfold get_form_class. by rewrite truthy_str_lower, lower_idemp.
Qed.

(** X4: a method form of the view that is set to [None] turns validation
    off for that method: a FormResource that has a form still returns
    the data as it came, and changes nothing. *)
Theorem method_form_None_disables_validation (n : nat) (self : Resource)
    (data : option loc) (files : option dict) (st : State) (rm : string) :
  cls self = FormResource →
  view_request (view st) = Some rm →
  let m := default rm (view_method (view st)) in
  m ≠ "" →
  view_method_forms (view st) !! (lower m ++ "_form") = Some None →
  validate_request (S n) self data files st = Some (Return (Data data), st).
Proof.
  intros Hcls Hreq m Hm Hattr.
  assert (get_form_class self (view st) None = None) as Hclass.
  { assert (truthy_str (Some m) = true) as Ht.
    { simpl. destruct (String.eqb_spec m ""); [done | reflexivity]. }
    unfold get_form_class. rewrite Hreq. subst m.
    destruct (view_method (view st)) as [vm|]; simpl default in *;
      rewrite Ht; unfold getattr at 1; by rewrite Hattr. }
  unfold validate_request. rewrite Hcls.
  eapply _validate_unbound; [reflexivity |].
  unfold get_bound_form. rewrite Hcls. unfold FormResource_get_bound_form.
  by rewrite Hclass.
Qed.

Lemma method_form_None_disables_validation_witness :
  validate_request 1 (form_resource (Some name_form)) (Some 1%positive) None
    (one_dict_on (request_view "POST" {[ "post_form" := None ]}) ∅)
  = Some (Return (Data (Some 1%positive)),
          one_dict_on (request_view "POST" {[ "post_form" := None ]}) ∅).
Proof.
  apply (method_form_None_disables_validation 0 (form_resource (Some name_form))
           (Some 1%positive) None
           (one_dict_on (request_view "POST" {[ "post_form" := None ]}) ∅) "POST");
    first [reflexivity | discriminate | (vm_compute; reflexivity)].
Defined.

(** ** Further properties: binding *)

(** X5: a FormResource never makes a form out of a model: when no form
    class is found it returns the data as it came and changes nothing,
    also when it has a model. *)
Theorem FormResource_ignores_model (n : nat) (self : Resource) (data : option loc)
    (files : option dict) (st : State) :
  cls self = FormResource →
  get_form_class self (view st) None = None →
  validate_request (S n) self data files st = Some (Return (Data data), st).
Proof.
  intros Hcls Hclass. unfold validate_request. rewrite Hcls.
  eapply _validate_unbound; [reflexivity |].
  unfold get_bound_form. rewrite Hcls. unfold FormResource_get_bound_form.
  by rewrite Hclass.
Qed.

Lemma FormResource_ignores_model_witness :
  validate_request 1 form_resource_with_model (Some 1%positive) None
    (one_dict name_and_extra)
  = Some (Return (Data (Some 1%positive)), one_dict name_and_extra).
Proof.
  apply (FormResource_ignores_model 0 form_resource_with_model); reflexivity.
Defined.

(** X6: a ModelResource made for a view, when the view or the class has
    a model, always binds a form: its [validate_request] never hands the
    data back unvalidated; it returns cleaned data of a form or raises. *)
Theorem ModelResource_always_validates (n : nat) (self : Resource)
    (data : option loc) (files : option dict) (st : State) :
  cls self = ModelResource →
  view_model (view st) ≠ None ∨ model self ≠ None →
  ∃ out st',
    validate_request (S (S n)) (ModelResource__init__ (view st) self) data files st
    = Some (out, st')
    ∧ ((∃ c, out = Return (Cleaned c)) ∨ ∃ detail, out = ErrorResponse 400 detail).
Proof.
  intros Hcls Hmodel.
  set (self' := ModelResource__init__ (view st) self).
  assert (∃ m, model self' = Some m) as [m Hm].
  { unfold self', ModelResource__init__. simpl.
    destruct (view_model (view st)) as [vm|]; [eauto |].
    destruct (model self) as [sm|]; [eauto |]. by destruct Hmodel. }
  assert (∃ bf, get_bound_form self' (view st) (deref st data) files None = Some bf)
    as [bf Hbind].
  { unfold get_bound_form. change (cls self') with (cls self). rewrite Hcls.
    unfold ModelResource_get_bound_form. rewrite Hm.
    destruct (get_form_class self' (view st) None) as [f|];
      destruct (is_not_None (deref st data) || is_not_None files); eauto;
      match goal with
      | |- context [is_ModelForm ?f] =>
          destruct (is_ModelForm f), (view_model_instance (view st)); eauto
      end. }
  destruct (validate_request_unfold self' data files st) as [allowed ->].
  pose proof (_validate_cases self' data files allowed st) as Hcases.
  cbv zeta in Hcases. rewrite Hbind in Hcases.
  destruct (is_valid bf && _).
  { rewrite Hcases. eexists _, _. split; [reflexivity | left; eauto]. }
  destruct (bool_decide (errors bf = ∅) && _).
  - destruct Hcases as (bf2 & _ & _ & Htwo). rewrite Htwo.
    repeat match goal with |- context [if ?b then _ else _] => destruct b end;
      (eexists _, _; split; [reflexivity |]); eauto.
  - rewrite Hcases. eexists _, _. split; [reflexivity | right; eauto].
Qed.

Lemma ModelResource_always_validates_witness :
  ∃ out st',
    validate_request 2
      (ModelResource__init__ (view (one_dict ∅)) (model_resource ["name"] None None None))
      None None (one_dict ∅)
    = Some (out, st')
    ∧ ((∃ c, out = Return (Cleaned c)) ∨ ∃ detail, out = ErrorResponse 400 detail).
Proof.
  apply (ModelResource_always_validates 0 (model_resource ["name"] None None None)
           None None (one_dict ∅)); [reflexivity |].
  right. discriminate.
Defined.

(** X7: a ModelResource without form class binds the form of its model,
    and gives it the model instance of the view only together with data
    or files; a form class that is found, ModelForm or not, is the one
    bound, whatever the model, and it is given the instance only when it
    is a ModelForm and there are data or files; so one that is no
    ModelForm is never given the instance. *)
Theorem ModelResource_get_bound_form_instance (self : Resource) (v : View)
    (data files : option dict) :
  cls self = ModelResource →
  (∀ m, get_form_class self v None = None → model self = Some m →
        get_bound_form self v data files None
        = Some (modelform m
                  (if is_not_None data || is_not_None files
                   then view_model_instance v else None)
                  data files))
  ∧ (∀ f, get_form_class self v None = Some f →
          get_bound_form self v data files None
          = Some (construct f
                    (if is_ModelForm f && (is_not_None data || is_not_None files)
                     then view_model_instance v else None)
                    data files))
  ∧ (∀ f, get_form_class self v None = Some f → is_ModelForm f = false →
          get_bound_form self v data files None = Some (construct f None data files)).
Proof.
  intros Hcls. unfold get_bound_form. rewrite Hcls.
  unfold ModelResource_get_bound_form. split; [| split].
  - intros m -> ->. simpl.
    destruct data, files; simpl; try reflexivity;
      by destruct (view_model_instance v).
  - intros f ->.
    destruct (model self), (is_ModelForm f), data, files; simpl; try reflexivity;
      by destruct (view_model_instance v).
  - intros f -> Hplain. rewrite Hplain.
    destruct (model self); by destruct data, files.
Qed.

Lemma ModelResource_get_bound_form_instance_witness :
  get_bound_form (model_resource ["name"] None None None)
    (instance_view {[ "name" := VStr "old" ]}) (Some ∅) None None
  = Some (construct name_form (Some {[ "name" := VStr "old" ]}) (Some ∅) None)
  ∧ get_bound_form (model_resource ["name"] None None None)
      (instance_view {[ "name" := VStr "old" ]}) None None None
    = Some (construct name_form None None None)
  ∧ get_bound_form model_resource_with_form
      (instance_view {[ "name" := VStr "old" ]}) (Some ∅) None None
    = Some (construct explicit_model_form (Some {[ "name" := VStr "old" ]})
              (Some ∅) None).
Proof.
  split; [| split].
  3: {
    destruct (ModelResource_get_bound_form_instance model_resource_with_form
                (instance_view {[ "name" := VStr "old" ]}) (Some ∅) None eq_refl)
      as (_ & Hfound & _).
    apply (Hfound explicit_model_form). reflexivity. }
  - destruct (ModelResource_get_bound_form_instance
                (model_resource ["name"] None None None)
                (instance_view {[ "name" := VStr "old" ]}) (Some ∅) None eq_refl)
      as [Hmodel _].
    apply (Hmodel (example_model ["name"])); reflexivity.
  - destruct (ModelResource_get_bound_form_instance
                (model_resource ["name"] None None None)
                (instance_view {[ "name" := VStr "old" ]}) None None eq_refl)
      as [Hmodel _].
    apply (Hmodel (example_model ["name"])); reflexivity.
Defined.

(** ** Further properties: the field sets *)

Lemma elem_of_property_fields (self : Resource) (k : string) :
  k ∈ property_fields self ↔
  ∃ m, model self = Some m ∧ k ∈ properties m ∧ startswith k "_" = false.
Proof.
  unfold property_fields. destruct (model self) as [m|].
  - rewrite elem_of_set, list_elem_of_filter. split.
    + intros [Hpub Hin]. exists m. repeat split; [done |].
      by destruct (startswith k "_").
    + intros (m' & [= <-] & Hin & Hpub). split; [| done]. by rewrite Hpub.
  - split; [by intros ?%not_elem_of_empty | by intros (m & ? & _)].
Qed.

(** X8: when [fields] is set to names, [include] and [exclude] play no
    part: two resources with the same model and the same [fields] have
    the same two field sets, whatever their [include] and [exclude]. *)
Theorem fields_set_ignores_include_exclude (self self' : Resource) :
  truthy (fields self) = true →
  model self' = model self →
  fields self' = fields self →
  _property_fields_set self' = _property_fields_set self
  ∧ _model_fields_set self' = _model_fields_set self.
Proof.
  intros Hf Hm Hfs. unfold _property_fields_set, _model_fields_set, property_fields.
  rewrite Hm, Hfs, Hf. done.
Qed.

Lemma fields_set_ignores_include_exclude_witness :
  _property_fields_set (model_resource ["a"; "b"; "c"] (Some ["b"; "d"]) None (Some ["b"]))
  = _property_fields_set whitelist_resource
  ∧ _model_fields_set (model_resource ["a"; "b"; "c"] (Some ["b"; "d"]) None (Some ["b"]))
    = _model_fields_set whitelist_resource.
Proof.
  apply (fields_set_ignores_include_exclude whitelist_resource
           (model_resource ["a"; "b"; "c"] (Some ["b"; "d"]) None (Some ["b"])));
    reflexivity.
Defined.

(** X9: the model-field set of a resource with a model never holds a
    name that is no field of the model; and when [fields] is not set it
    holds no excluded name. *)
Theorem model_fields_set_within_model (self : Resource) (m : Model) :
  model self = Some m →
  ∃ s, _model_fields_set self = Some s
       ∧ (∀ k, k ∈ s → k ∈ meta_fields m)
       ∧ (truthy (fields self) = false →
          ∀ k, k ∈ as_tuple (exclude self) → k ∉ s).
Proof.
  intros Hm. unfold _model_fields_set. rewrite Hm.
  destruct (truthy (fields self)); eexists; (split; [reflexivity |]); split.
  - intros k [Hk _]%elem_of_intersection. by apply elem_of_set.
  - discriminate.
  - intros k [Hk _]%elem_of_difference. by apply elem_of_set.
  - intros _ k Hex [_ Hn]%elem_of_difference. apply Hn. by apply elem_of_set.
Qed.

Lemma model_fields_set_within_model_witness :
  ∃ s, _model_fields_set abc_resource = Some s
       ∧ (∀ k, k ∈ s → k ∈ ["a"; "b"])
       ∧ (truthy (fields abc_resource) = false → ∀ k, k ∈ ["a"] → k ∉ s).
Proof.
  apply (model_fields_set_within_model abc_resource (example_model ["a"; "b"])).
  reflexivity.
Defined.

(** X10: what the property-field set holds.  With [fields] set: the
    names of [fields] that are properties of the model whose name does
    not start with an underscore.  Without: such properties and the
    names of [include], less the names of [exclude]; so a private
    attribute gets in only by [include], and an excluded name never. *)
Theorem elem_of_property_fields_set (self : Resource) (k : string) :
  let public_property :=
    ∃ m, model self = Some m ∧ k ∈ properties m ∧ startswith k "_" = false in
  k ∈ _property_fields_set self ↔
    if truthy (fields self)
    then public_property ∧ k ∈ as_tuple (fields self)
    else (public_property ∨ k ∈ as_tuple (include self))
         ∧ (k ∉ as_tuple (exclude self)).
Proof.
  intros public_property. unfold _property_fields_set.
  destruct (truthy (fields self)).
  - rewrite elem_of_intersection, elem_of_property_fields, elem_of_set. done.
  - rewrite elem_of_difference, elem_of_union, elem_of_property_fields, !elem_of_set.
    done.
Qed.

(** ** Further properties: one invocation *)

Lemma dom_add_extra_fields (A : gset string) (data cleaned : gmap string value) :
  dom (add_extra_fields A (dom data) data cleaned) = dom cleaned ∪ (A ∩ dom data).
Proof.
  apply set_eq. intros k.
  rewrite elem_of_union, elem_of_intersection, !elem_of_dom, lookup_add_extra_fields.
  destruct (cleaned !! k) as [v|] eqn:Hc.
  - split; [intros _; left; eauto | eauto].
  - destruct (decide (k ∈ A)) as [HA|HA].
    + split; [by right | intros [[? [=]]|[_ ?]]; done].
    + split; [by intros [? [=]] | intros [[? [=]]|[? _]]; done].
Qed.

Section invocation.

(** An invocation of [_validate] that has set the fake key (lines
    112-114) and bound a form (line 116), as in the section above. *)
Variables (self : Resource) (data : option loc) (files : option dict).
Variables (allowed : list string) (fake : option string) (st : State).
Variables (allowed1 : list string) (st1 : State) (bf : BoundForm).
Hypothesis Hfake : set_fake_data data allowed fake st = Some (allowed1, st1).
Hypothesis Hbind :
  get_bound_form self (view st1) (deref st1 data) files None = Some bf.

(** X11: with [allow_unknown_form_fields] a valid form is always
    accepted, whatever keys the data has; the unknown keys are not
    copied into the result, which has under such a key only what the
    form cleaned. *)
Theorem unknown_fields_allowed_and_dropped :
  let d := default ∅ (deref st1 data) in
  let U := unknown_fields_of (dom d) (set (form_fields bf)) (set allowed1) in
  allow_unknown_form_fields self = true →
  is_valid bf = true →
  ∀ n, ∃ c st',
    _validate (S n) self data files allowed fake st = Some (Return (Cleaned c), st')
    ∧ ∀ k, k ∈ U → c !! k = cleaned_data bf !! k.
Proof.
  intros d U Hallow Hvalid n.
  rewrite (_validate_pass n _ _ _ _ _ _ _ _ _ Hfake Hbind).
  rewrite Hallow, Hvalid. simpl. eexists _, _. split; [reflexivity |].
  intros k Hk. rewrite lookup_add_extra_fields.
  destruct (cleaned_data bf !! k); [done |].
  rewrite decide_False; [done |].
  apply elem_of_unknown_fields_of in Hk. tauto.
Qed.

(** X12: the keys of the mapping returned on the success path are the
    keys of the cleaned data of the form and the allowed extra keys the
    data has; under any other key, a reserved one such as
    [csrfmiddlewaretoken] included, the result has nothing, although the
    data may. *)
Theorem returned_keys :
  let d := default ∅ (deref st1 data) in
  let U := unknown_fields_of (dom d) (set (form_fields bf)) (set allowed1) in
  is_valid bf && (allow_unknown_form_fields self || bool_decide (U = ∅)) = true →
  ∀ n, ∃ c st',
    _validate (S n) self data files allowed fake st = Some (Return (Cleaned c), st')
    ∧ dom c = dom (cleaned_data bf) ∪ (set allowed1 ∩ dom d)
    ∧ ∀ k, k ∉ set allowed1 → c !! k = cleaned_data bf !! k.
Proof.
  intros d U Hs n.
  rewrite (_validate_pass n _ _ _ _ _ _ _ _ _ Hfake Hbind).
  fold d. fold U. rewrite Hs. eexists _, _. split; [reflexivity |]. split.
  - apply dom_add_extra_fields.
  - intros k Hk. rewrite lookup_add_extra_fields.
    destruct (cleaned_data bf !! k); [done |]. by rewrite decide_False.
Qed.

(** X13: on the failure path that is not the silent one, nothing the
    form reports is lost: the non-field errors are the ['errors'] member
    exactly when there are some, and every list of messages the form has
    under a name that does not start with two underscores is in the
    field errors, coerced by [unicode], unless the name is an unknown
    key of the data. *)
Theorem form_errors_reported :
  let d := default ∅ (deref st1 data) in
  let U := unknown_fields_of (dom d) (set (form_fields bf)) (set allowed1) in
  is_valid bf && (allow_unknown_form_fields self || bool_decide (U = ∅)) = false →
  bool_decide (errors bf = ∅) && bool_decide (U = ∅) = false →
  ∀ n, ∃ detail st',
    _validate (S n) self data files allowed fake st
    = Some (ErrorResponse 400 detail, st')
    ∧ (detail_errors detail
       = if bool_decide (non_field_errors bf = []) then None
         else Some (non_field_errors bf))
    ∧ ∀ k raw, errors bf !! k = Some raw → startswith k "__" = false → k ∉ U →
        ∃ fe, detail_field_errors detail = Some fe
              ∧ fe !! k = Some (map unicode raw).
Proof.
  intros d U Hs Hsilent n.
  rewrite (_validate_pass n _ _ _ _ _ _ _ _ _ Hfake Hbind).
  fold d. fold U. rewrite Hs, Hsilent.
  eexists _, _. split; [reflexivity |]. split.
  - unfold error_detail. simpl. by destruct (non_field_errors bf).
  - intros k raw Hraw Hpub HnU.
    assert (field_errors_of bf U !! k = Some (map unicode raw)) as Hfe.
    { rewrite lookup_field_errors_of, decide_False, Hpub, Hraw by done. done. }
    exists (field_errors_of bf U). split; [| exact Hfe].
    unfold error_detail. simpl. rewrite bool_decide_eq_false_2; [done |].
    intros He. rewrite He, lookup_empty in Hfe. discriminate.
Qed.

End invocation.

(** ** Further properties: the whole call *)

(** X14: a ModelResource tolerates the names of its property-field set
    in the data: none of them is an unknown field, and when the first
    invocation succeeds the value the data has under such a name is
    returned as it came, unless the form cleaned that name itself. *)
Theorem property_fields_tolerated (n : nat) (self : Resource) (data : option loc)
    (files : option dict) (st : State) (bf : BoundForm) :
  cls self = ModelResource →
  get_bound_form self (view st) (deref st data) files None = Some bf →
  let d := default ∅ (deref st data) in
  let U := unknown_fields_of (dom d) (set (form_fields bf)) (_property_fields_set self) in
  (∀ k, k ∈ _property_fields_set self → k ∉ U)
  ∧ (is_valid bf && (allow_unknown_form_fields self || bool_decide (U = ∅)) = true →
     ∃ c st',
       validate_request (S n) self data files st = Some (Return (Cleaned c), st')
       ∧ ∀ k, k ∈ _property_fields_set self → cleaned_data bf !! k = None →
           c !! k = d !! k).
Proof.
  intros Hcls Hbind d U. split.
  - intros k Hk HU. apply elem_of_unknown_fields_of in HU. tauto.
  - intros Hs. unfold validate_request. rewrite Hcls.
    assert (set_fake_data data (elements (_property_fields_set self)) None st
            = Some (elements (_property_fields_set self), st)) as Hfake by done.
    rewrite (_validate_pass n _ _ _ _ _ _ _ _ _ Hfake Hbind).
    assert (set (elements (_property_fields_set self)) = _property_fields_set self)
      as -> by apply list_to_set_elements_L.
    fold d. fold U. rewrite Hs.
    eexists _, _. split; [reflexivity |].
    intros k Hk Hc. rewrite lookup_add_extra_fields, Hc. by rewrite decide_True.
Qed.

Lemma property_fields_tolerated_witness :
  ∃ c st',
    validate_request 1 (model_resource ["extra"] None None None) (Some 1%positive) None
      (one_dict name_and_extra) = Some (Return (Cleaned c), st')
    ∧ c !! "extra" = Some (VStr "x").
Proof.
  assert (get_bound_form (model_resource ["extra"] None None None)
            (view (one_dict name_and_extra))
            (deref (one_dict name_and_extra) (Some 1%positive)) None None
          = Some (construct name_form None (Some name_and_extra) None)) as Hbind
    by (vm_compute; reflexivity).
  destruct (property_fields_tolerated 0 (model_resource ["extra"] None None None)
              (Some 1%positive) None (one_dict name_and_extra) _ eq_refl Hbind)
    as [_ Hok].
  destruct (Hok ltac:(vm_compute; reflexivity)) as (c & st' & Hrun & Hextra).
  exists c, st'. split; [exact Hrun |].
  rewrite Hextra; [vm_compute; reflexivity | by_evaluation | vm_compute; reflexivity].
Defined.

(** X15: a call that retries and then returns, returns cleaned data that
    has the fake key [_fake_data] in it. *)
Theorem retried_result_holds_fake_key (n : nat) (self : Resource)
    (data : option loc) (files : option dict) (st : State) :
  validate_request 1 self data files st = None →
  ∃ out st',
    validate_request (S (S n)) self data files st = Some (out, st')
    ∧ ∀ r, out = Return r → ∃ c, r = Cleaned c ∧ is_Some (c !! "_fake_data").
Proof.
  destruct (validate_request_unfold self data files st) as [allowed Hallowed].
  rewrite !Hallowed. clear Hallowed. intros Hone.
  pose proof (_validate_cases self data files allowed st) as Hcases.
  cbv zeta in Hcases.
  destruct (get_bound_form self (view st) (deref st data) files None) as [bf1|];
    [| by rewrite Hcases in Hone].
  destruct (is_valid bf1 && _); [by rewrite Hcases in Hone |].
  destruct (bool_decide (errors bf1 = ∅) && _); [| by rewrite Hcases in Hone].
  destruct Hcases as (bf2 & _ & _ & Htwo). rewrite Htwo.
  destruct (is_valid bf2 && _).
  - eexists _, _. split; [reflexivity |]. intros r [= <-].
    eexists. split; [reflexivity |]. rewrite lookup_add_extra_fields.
    destruct (cleaned_data bf2 !! "_fake_data"); [by eauto |].
    rewrite decide_True.
    + rewrite lookup_insert_eq. eauto.
    + rewrite elem_of_set, elem_of_app. right. by left.
  - destruct (bool_decide (errors bf2 = ∅) && _);
      (eexists _, _; split; [reflexivity |]); intros r; discriminate.
Qed.

Lemma retried_result_holds_fake_key_witness :
  ∃ out st',
    validate_request 2 (form_resource (Some optional_form)) None None (one_dict ∅)
    = Some (out, st')
    ∧ ∀ r, out = Return r → ∃ c, r = Cleaned c ∧ is_Some (c !! "_fake_data").
Proof.
  apply (retried_result_holds_fake_key 0 (form_resource (Some optional_form))
           None None (one_dict ∅)).
  vm_compute. reflexivity.
Defined.

(** X16: after a call that returns cleaned data, the form left in
    [bound_form_instance] on the view has that same mapping as its
    cleaned data, extra fields included. *)
Theorem bound_form_instance_holds_result (n : nat) (self : Resource)
    (data : option loc) (files : option dict) (st : State) :
  ∃ out st',
    validate_request (S (S n)) self data files st = Some (out, st')
    ∧ ∀ c, out = Return (Cleaned c) →
        ∃ bf, bound_form_instance (view st') = Some bf ∧ cleaned_data bf = c.
Proof.
  destruct (validate_request_unfold self data files st) as [allowed Hallowed].
  rewrite !Hallowed. clear Hallowed.
  pose proof (_validate_cases self data files allowed st) as Hcases.
  cbv zeta in Hcases.
  destruct (get_bound_form self (view st) (deref st data) files None) as [bf1|].
  - destruct (is_valid bf1 && _).
    { rewrite Hcases. eexists _, _. split; [reflexivity |].
      intros c [= <-]. eexists. split; reflexivity. }
    destruct (bool_decide (errors bf1 = ∅) && _).
    + destruct Hcases as (bf2 & _ & _ & Htwo). rewrite Htwo.
      destruct (is_valid bf2 && _).
      { eexists _, _. split; [reflexivity |].
        intros c [= <-]. eexists. split; reflexivity. }
      destruct (bool_decide (errors bf2 = ∅) && _);
        (eexists _, _; split; [reflexivity |]); intros c; discriminate.
    + rewrite Hcases. eexists _, _. split; [reflexivity |]. intros c. discriminate.
  - rewrite Hcases. eexists _, _. split; [reflexivity |]. intros c. discriminate.
Qed.

Lemma content_heap_eq (st st' : State) (l : loc) :
  heap st' !! l = heap st !! l → content st' l = content st l.
Proof. unfold content. by intros ->. Qed.

(** X17: whatever the call does, a dict that existed before it keeps
    every key it had, with its value, and gains none except, at most,
    the fake key [_fake_data]. *)
Theorem data_changes_in_fake_key_only (n : nat) (self : Resource)
    (data : option loc) (files : option dict) (st : State) :
  ∃ out st',
    validate_request (S (S n)) self data files st = Some (out, st')
    ∧ ∀ l k, l ∈ dom (heap st) → k ≠ "_fake_data" →
        content st' l !! k = content st l !! k.
Proof.
  destruct (validate_request_unfold self data files st) as [allowed Hallowed].
  rewrite !Hallowed. clear Hallowed.
  pose proof (_validate_cases self data files allowed st) as Hcases.
  cbv zeta in Hcases.
  destruct (get_bound_form self (view st) (deref st data) files None) as [bf1|].
  - set (p := and_or_new_dict data (set_bound_form_instance bf1 st)) in *.
    assert (∀ l, l ∈ dom (heap st) → content p.2 l = content st l) as Hp.
    { intros l Hl. apply content_heap_eq. unfold p.
      by rewrite heap_and_or_new_dict. }
    destruct (is_valid bf1 && _).
    { rewrite Hcases. eexists _, _. split; [reflexivity |].
      intros l k Hl _. by rewrite <- (Hp l Hl). }
    destruct (bool_decide (errors bf1 = ∅) && _).
    + destruct Hcases as (bf2 & _ & _ & Htwo). rewrite Htwo.
      assert (∀ l k, l ∈ dom (heap st) → k ≠ "_fake_data" →
                content (setitem p.1 "_fake_data" (VStr "_fake_data") p.2) l !! k
                = content st l !! k) as Hset.
      { intros l k Hl Hk. destruct (decide (l = p.1)) as [->|Hne].
        - rewrite content_setitem, lookup_insert_ne by done. by rewrite Hp.
        - rewrite <- (Hp l Hl). f_equal. apply content_heap_eq.
          unfold setitem. simpl. by rewrite lookup_insert_ne. }
      repeat match goal with |- context [if ?b then _ else _] => destruct b end;
        (eexists _, _; split; [reflexivity | exact Hset]).
    + rewrite Hcases. eexists _, _. split; [reflexivity |].
      intros l k Hl _. by rewrite <- (Hp l Hl).
  - rewrite Hcases. eexists _, _. split; [reflexivity | done].
Qed.

(** ** Instances of the further properties *)

Lemma unknown_fields_allowed_and_dropped_witness :
  ∃ c st',
    _validate 1 (lenient_resource name_form) (Some 1%positive) None [] None
      (one_dict name_and_extra) = Some (Return (Cleaned c), st')
    ∧ c !! "extra" = None.
Proof.
  assert (set_fake_data (Some 1%positive) [] None (one_dict name_and_extra)
          = Some ([], one_dict name_and_extra)) as Hfake by reflexivity.
  assert (get_bound_form (lenient_resource name_form)
            (view (one_dict name_and_extra))
            (deref (one_dict name_and_extra) (Some 1%positive)) None None
          = Some (construct name_form None (Some name_and_extra) None)) as Hbind
    by (vm_compute; reflexivity).
  destruct (unknown_fields_allowed_and_dropped _ _ _ _ _ _ _ _ _ Hfake Hbind
              eq_refl ltac:(vm_compute; reflexivity) 0)
    as (c & st' & Hrun & Hdrop).
  exists c, st'. split; [exact Hrun |].
  rewrite Hdrop; [vm_compute; reflexivity | by_evaluation].
Defined.

Lemma returned_keys_witness :
  ∃ c st',
    _validate 1 (form_resource (Some name_form)) (Some 1%positive) None ["extra"] None
      (one_dict {[ "name" := VStr "a"; "extra" := VStr "x";
                   "csrfmiddlewaretoken" := VStr "t" ]})
    = Some (Return (Cleaned c), st')
    ∧ c !! "csrfmiddlewaretoken" = None.
Proof.
  set (d := ({[ "name" := VStr "a"; "extra" := VStr "x";
                "csrfmiddlewaretoken" := VStr "t" ]} : dict)).
  assert (set_fake_data (Some 1%positive) ["extra"] None (one_dict d)
          = Some (["extra"], one_dict d)) as Hfake by reflexivity.
  assert (get_bound_form (form_resource (Some name_form)) (view (one_dict d))
            (deref (one_dict d) (Some 1%positive)) None None
          = Some (construct name_form None (Some d) None)) as Hbind
    by (vm_compute; reflexivity).
  destruct (returned_keys _ _ _ _ _ _ _ _ _ Hfake Hbind
              ltac:(vm_compute; reflexivity) 0)
    as (c & st' & Hrun & _ & Hrest).
  exists c, st'. split; [exact Hrun |].
  rewrite Hrest; [vm_compute; reflexivity | by_evaluation].
Defined.

Lemma form_errors_reported_witness :
  ∃ detail st' fe,
    _validate 1 (form_resource (Some failing_form)) (Some 1%positive) None [] None
      (one_dict ∅) = Some (ErrorResponse 400 detail, st')
    ∧ detail_errors detail = Some [VInt 3]
    ∧ detail_field_errors detail = Some fe
    ∧ fe !! "name" = Some ["This field is required."].
Proof.
  assert (set_fake_data (Some 1%positive) [] None (one_dict ∅)
          = Some ([], one_dict ∅)) as Hfake by reflexivity.
  assert (get_bound_form (form_resource (Some failing_form)) (view (one_dict ∅))
            (deref (one_dict ∅) (Some 1%positive)) None None
          = Some (construct failing_form None (Some ∅) None)) as Hbind
    by (vm_compute; reflexivity).
  destruct (form_errors_reported _ _ _ _ _ _ _ _ _ Hfake Hbind
              eq_refl ltac:(vm_compute; reflexivity) 0)
    as (detail & st' & Hrun & Herrs & Hfields).
  destruct (Hfields "name" [VStr "This field is required."]) as (fe & Hfe & Hname);
    [vm_compute; reflexivity | reflexivity | by_evaluation |].
  exists detail, st', fe. repeat split; [exact Hrun | | exact Hfe | exact Hname].
  rewrite Herrs. reflexivity.
Defined.
